(** * Tenant credential store and aggregation pipeline of [backend/app.py]

    A shallow embedding of the Flask backend: the Fernet-backed secret
    cipher, the file-backed tenant store with migration-on-read, the tenant
    CRUD handlers, the credential resolver and the Graph aggregation
    pipeline.

    Conventions.
    - JSON values are the Python values [json.loads] produces; numbers are
      restricted to integers (the store and the Graph counters only carry
      integers), of the size that [json.loads] accepts: at most 4300
      digits, the limit of CPython's conversions between [int] and [str].
      Objects are insertion-ordered association lists, as Python dicts
      are.
    - Python [str] is modelled by [string], read as a sequence of code
      points below 256.
    - Libraries outside the repository (json, cryptography.fernet, uuid,
      datetime, msal, requests) are the fields of the class [Externals];
      what the proofs need of them is the class [ExternalsOK].
    - Effects are explicit: an atomic action is a function on [world]; a
      handler is a [prog], a sequence of atomic actions.  Every
      [with _TENANTS_LOCK:] block is one atomic action. *)

From Stdlib Require Import List String Ascii ZArith Lia Bool Arith DecimalString.
Import ListNotations.
Open Scope string_scope.

#[local] Set Warnings "-register-all".

(** ** JSON values *)

Inductive json : Type :=
| JNull
| JBool (b : bool)
| JInt (z : Z)
| JStr (s : string)
| JList (l : list json)
| JObj (d : list (string * json)).

Definition dict := list (string * json).

(** Exceptions that the handlers can raise and catch. *)
Inductive exn : Type :=
| AttributeError
| TypeError
| ValueError
| KeyError
| LibraryError.

(** What a handler returns: [Reply body status] is [jsonify(body), status];
    [Crash e] is the [except Exception as e] arm,
    [jsonify({"error": str(e)}), 500]. *)
Inductive reply : Type :=
| Reply (body : json) (status : Z)
| Crash (e : exn).

Definition status_of (r : reply) : Z :=
  match r with
  | Reply _ s => s
  | Crash _ => 500%Z
  end.

(** ** Python dictionaries *)

Module Dict.

(** [d.get(k)], [None] when the key is absent. *)
Fixpoint get (k : string) (d : dict) : option json :=
  match d with
  | [] => None
  | (k', v) :: r => if String.eqb k k' then Some v else get k r
  end.

(** [d.get(k, dflt)]. *)
Definition get_default (k : string) (dflt : json) (d : dict) : json :=
  match get k d with
  | Some v => v
  | None => dflt
  end.

(** [k in d]. *)
Definition mem (k : string) (d : dict) : bool :=
  match get k d with
  | Some _ => true
  | None => false
  end.

(** [d[k] = v]: an existing key keeps its position, a new key goes last. *)
Fixpoint set (k : string) (v : json) (d : dict) : dict :=
  match d with
  | [] => [(k, v)]
  | (k', v') :: r =>
      if String.eqb k k' then (k, v) :: r else (k', v') :: set k v r
  end.

(** [d.pop(k, None)]. *)
Fixpoint pop (k : string) (d : dict) : dict :=
  match d with
  | [] => []
  | (k', v') :: r =>
      if String.eqb k k' then r else (k', v') :: pop k r
  end.

(** [d.update(u)]: the keys of [u] are assigned in order. *)
Definition update (u : dict) (d : dict) : dict :=
  fold_left (fun acc kv => set (fst kv) (snd kv) acc) u d.

End Dict.

(** ** Python builtins on JSON values *)

(** Truth value of a JSON value. *)
Definition py_truthy (v : json) : bool :=
  match v with
  | JNull => false
  | JBool b => b
  | JInt z => negb (Z.eqb z 0)
  | JStr s => negb (String.eqb s "")
  | JList l => match l with [] => false | _ => true end
  | JObj d => match d with [] => false | _ => true end
  end.

(** [x or y]. *)
Definition py_or (x y : json) : json := if py_truthy x then x else y.

(** [str.isspace] on code points below 256. *)
Definition isspace (c : ascii) : bool :=
  let n := nat_of_ascii c in
  (((9 <=? n) && (n <=? 13)) || ((28 <=? n) && (n <=? 32))
   || (n =? 133) || (n =? 160))%nat.

Fixpoint lstrip (s : string) : string :=
  match s with
  | EmptyString => EmptyString
  | String c r => if isspace c then lstrip r else s
  end.

Fixpoint rstrip (s : string) : string :=
  match s with
  | EmptyString => EmptyString
  | String c r =>
      match rstrip r with
      | EmptyString => if isspace c then EmptyString else String c EmptyString
      | r' => String c r'
      end
  end.

(** [s.strip()]. *)
Definition py_strip (s : string) : string := rstrip (lstrip s).

(** [s.startswith(p)]. *)
Definition startswith (p s : string) : bool := String.prefix p s.

(** [sub in s] on strings. *)
Fixpoint str_contains (sub s : string) : bool :=
  String.prefix sub s ||
  match s with
  | EmptyString => false
  | String _ r => str_contains sub r
  end.

(** The characters of a string, as one-character strings. *)
Fixpoint chars (s : string) : list json :=
  match s with
  | EmptyString => []
  | String c r => JStr (String c EmptyString) :: chars r
  end.

(** [iter(v)]: lists yield their items, dicts their keys, strings their
    characters; the other values raise [TypeError]. *)
Definition py_iter (v : json) : exn + list json :=
  match v with
  | JList l => inr l
  | JObj d => inr (map (fun kv => JStr (fst kv)) d)
  | JStr s => inr (chars s)
  | _ => inl TypeError
  end.

(** [len(v)]. *)
Definition py_len (v : json) : exn + nat :=
  match v with
  | JList l => inr (List.length l)
  | JObj d => inr (List.length d)
  | JStr s => inr (String.length s)
  | _ => inl TypeError
  end.

(** [v.get(k, dflt)]: only dicts have [get]. *)
Definition py_get (k : string) (dflt : json) (v : json) : exn + json :=
  match v with
  | JObj d => inr (Dict.get_default k dflt d)
  | _ => inl AttributeError
  end.

(** [v.get('id') == tenant_id] for a dict [d] and a string [tenant_id]. *)
Definition id_is (tenant_id : string) (d : dict) : bool :=
  match Dict.get "id" d with
  | Some (JStr s) => String.eqb s tenant_id
  | _ => false
  end.

(** Decimal digits of an integer, as [str(int)] prints them. *)
Definition str_of_Z (z : Z) : string := NilZero.string_of_int (Z.to_int z).

Definition is_digit (c : ascii) : bool :=
  let n := nat_of_ascii c in ((48 <=? n) && (n <=? 57))%nat.

(** Digits with single underscores between them, most significant first;
    [prev] tells whether the previous character was a digit. *)
Fixpoint digits_value (s : string) (prev : bool) (acc : Z) : option Z :=
  match s with
  | EmptyString => if prev then Some acc else None
  | String c r =>
      if is_digit c
      then digits_value r true (10 * acc + Z.of_nat (nat_of_ascii c - 48))
      else if (nat_of_ascii c =? 95)%nat && prev
           then digits_value r false acc
           else None
  end.

(** The blanks that [int] skips around a number: tab, line feed, vertical
    tab, form feed, carriage return, space, and the blanks U+0085 and
    U+00A0.  Unlike [str.strip], [int] does not skip the separators
    U+001C to U+001F. *)
Definition int_space (c : ascii) : bool :=
  let n := nat_of_ascii c in
  (((9 <=? n) && (n <=? 13)) || (n =? 32) || (n =? 133) || (n =? 160))%nat.

Fixpoint int_lskip (s : string) : string :=
  match s with
  | EmptyString => EmptyString
  | String c r => if int_space c then int_lskip r else s
  end.

Fixpoint int_rskip (s : string) : string :=
  match s with
  | EmptyString => EmptyString
  | String c r =>
      match int_rskip r with
      | EmptyString => if int_space c then EmptyString else String c EmptyString
      | r' => String c r'
      end
  end.

(** Number of digits of a string, underscores not counted. *)
Fixpoint count_digits (s : string) : nat :=
  match s with
  | EmptyString => O
  | String c r => if is_digit c then S (count_digits r) else count_digits r
  end.

(** CPython's default limit on the digits of a string that [int]
    converts. *)
Definition int_max_str_digits : nat := 4300.

(** [int(s)] for a string, base 10; [None] is [ValueError]: the string is
    not blanks, an optional sign and digits with single underscores
    between them, or it has more digits than the limit. *)
Definition int_of_str (s : string) : option Z :=
  match int_rskip (int_lskip s) with
  | EmptyString => None
  | String c r =>
      let digits := if ((nat_of_ascii c =? 45) || (nat_of_ascii c =? 43))%nat
                    then r else String c r in
      if (count_digits digits <=? int_max_str_digits)%nat
      then if (nat_of_ascii c =? 45)%nat
           then option_map Z.opp (digits_value digits false 0)
           else digits_value digits false 0
      else None
  end.

(** [int(v)]. *)
Definition py_int (v : json) : exn + Z :=
  match v with
  | JInt z => inr z
  | JBool b => inr (if b then 1 else 0)%Z
  | JStr s => match int_of_str s with
              | Some z => inr z
              | None => inl ValueError
              end
  | _ => inl TypeError
  end.

(** [str(v)].  Python prints lists and dicts with [repr]; that printer is
    the parameter [repr]. *)
Definition py_str (repr : json -> string) (v : json) : string :=
  match v with
  | JNull => "None"
  | JBool true => "True"
  | JBool false => "False"
  | JInt z => str_of_Z z
  | JStr s => s
  | _ => repr v
  end.

(** Error monad for the pure parts of a handler: [inl e] is a raised
    exception. *)
Definition bindE {A B : Type} (x : exn + A) (f : A -> exn + B) : exn + B :=
  match x with
  | inl e => inl e
  | inr a => f a
  end.

Notation "'try!' x <- c1 ; c2" := (bindE c1 (fun x => c2))
  (at level 61, x pattern, c1 at next level, right associativity).

(** ** Libraries outside the repository *)

(** The four Graph collections that [_collect_tenant_data] fetches. *)
Inductive endpoint : Type :=
| Users
| SubscribedSkus
| Groups
| Sites.

(** [acquire_token_for_client]: the MSAL client raises, or returns a dict. *)
Inductive token_outcome : Type :=
| TokenRaise (e : exn)
| TokenResult (d : dict).

(** One [requests.get] with [raise_for_status] and [response.json()]:
    [FetchRaise] is a network error, a non-2xx status or an unreadable
    body. *)
Inductive fetch_outcome : Type :=
| FetchRaise
| FetchJson (body : json).

Class Externals : Type := {
  (** contents of a file *)
  text : Type;
  (** [json.loads]; [None] when it raises *)
  json_loads : text -> option json;
  (** [json.dumps(v, ensure_ascii=False, indent=2)] *)
  json_dumps : json -> text;
  (** [_FERNET.encrypt]; the first argument stands for the clock and the
      random bytes the call draws *)
  fernet_encrypt : nat -> string -> string;
  (** [_FERNET.decrypt]; [None] when it raises *)
  fernet_decrypt : string -> option string;
  (** [str(uuid.uuid4())] from the random source *)
  uuid4 : nat -> string;
  (** [datetime.now().isoformat()] from the clock *)
  now_isoformat : nat -> string;
  (** [repr] of a list or dict *)
  repr_container : json -> string;
  (** the MSAL client built from directory id, client id and secret *)
  acquire_token_for_client : json -> json -> json -> token_outcome;
  (** a Graph endpoint queried with the bearer token *)
  graph_get : endpoint -> json -> fetch_outcome
}.

(** [_looks_encrypted]: a string that starts with the Fernet magic prefix
    and is longer than 20 characters. *)
Definition _looks_encrypted (value : json) : bool :=
  match value with
  | JStr s => startswith "gAAAA" s && (20 <? String.length s)%nat
  | _ => false
  end.

(** What the proofs assume of the libraries: [json.loads] inverts
    [json.dumps], Fernet decrypts what it encrypted, and a Fernet token
    (version byte 0x80 and a timestamp, base64) has the envelope format. *)
Class ExternalsOK (E : Externals) : Prop := {
  loads_dumps : forall v, json_loads (json_dumps v) = Some v;
  decrypt_encrypt : forall n p, fernet_decrypt (fernet_encrypt n p) = Some p;
  token_envelope : forall n p, _looks_encrypted (JStr (fernet_encrypt n p)) = true
}.

(** ** Key sourcing *)

(** [_load_fernet]: the key handed to [Fernet] and the key file afterwards.
    [env_key] is [os.environ.get("TENANT_SECRET_KEY", "")], [key_file] the
    text of [tenant_key.key] ([None] when the file does not exist) and
    [generated] what [Fernet.generate_key()] would return. *)
Definition _load_fernet (env_key : string) (key_file : option string)
  (generated : string) : string * option string :=
  let key := py_strip env_key in
  if negb (py_truthy (JStr key))
  then match key_file with
       | Some content => (py_strip content, key_file)
       | None => (generated, Some generated)
       end
  else (key, key_file).

(** ** The world outside a handler *)

Section Backend.

Context {E : Externals}.

(** What a handler does to the outside, in order. *)
Inductive event : Type :=
| EvWrite (t : text)
| EvToken (tenant_id_val client_id client_secret : json)
| EvFetch (e : endpoint).

Record world : Type := mkWorld {
  (** [tenants.json]; [None] when the file does not exist *)
  tenants_file : option text;
  (** state of the clock and the random source *)
  tick : nat;
  (** the events so far, oldest first *)
  trace : list event
}.

(** An atomic action. *)
Definition action (A : Type) : Type := world -> A * world.

Definition next_tick (w : world) : world :=
  mkWorld (tenants_file w) (S (tick w)) (trace w).

Definition log (ev : event) (w : world) : world :=
  mkWorld (tenants_file w) (tick w) (trace w ++ [ev]).

(** [_TENANTS_FILE.write_text(t)]. *)
Definition write_text (t : text) (w : world) : world :=
  mkWorld (Some t) (tick w) (trace w ++ [EvWrite t]).

(** Number of times the file was written. *)
Definition writes (w : world) : nat :=
  List.length (filter (fun ev => match ev with EvWrite _ => true | _ => false end)
                      (trace w)).

(** Whether the token acquirer was contacted. *)
Definition token_requested (w : world) : bool :=
  existsb (fun ev => match ev with EvToken _ _ _ => true | _ => false end)
          (trace w).

(** A handler: atomic actions in sequence.  The actions of different
    handlers may interleave. *)
Inductive prog (A : Type) : Type :=
| Ret (a : A)
| Act {B : Type} (f : action B) (k : B -> prog A).

Arguments Ret {A} a.
Arguments Act {A B} f k.

Fixpoint run {A : Type} (p : prog A) (w : world) : A * world :=
  match p with
  | Ret a => (a, w)
  | Act f k => let (b, w') := f w in run (k b) w'
  end.

Fixpoint bind {A B : Type} (p : prog A) (g : A -> prog B) : prog B :=
  match p with
  | Ret a => g a
  | Act f k => Act f (fun b => bind (k b) g)
  end.

Notation "x <- c1 ;; c2" := (bind c1 (fun x => c2))
  (at level 61, c1 at next level, right associativity).

(** One atomic action as a handler step. *)
Definition atomic {A : Type} (f : action A) : prog A := Act f Ret.

(** ** Secret cipher *)

(** [_encrypt_secret] on a string (the callers never pass [None]). *)
Definition _encrypt_secret (plain : string) : action string :=
  fun w => (fernet_encrypt (tick w) plain, next_tick w).

(** [_decrypt_secret]: a value that is falsy or does not look encrypted
    is returned as it is; a failed decryption gives the empty string. *)
Definition _decrypt_secret (encrypted : json) : json :=
  if negb (py_truthy encrypted) || negb (_looks_encrypted encrypted)
  then encrypted
  else match encrypted with
       | JStr s => match fernet_decrypt s with
                   | Some plain => JStr plain
                   | None => JStr ""
                   end
       | _ => JStr ""
       end.

(** ** Tenant store *)

(** Whether the read migrates this value of [t.get("clientSecret")]. *)
Definition is_plaintext (secret : option json) : bool :=
  match secret with
  | Some (JStr s) => negb (String.eqb s "") && negb (_looks_encrypted (JStr s))
  | _ => false
  end.

(** The migration loop of [_read_tenants]: the records after the loop and
    the flag [changed], or the exception of a [t.get] on a non-dict. *)
Fixpoint migrate (ts : list json) : action (exn + list json * bool) :=
  fun w =>
    match ts with
    | [] => (inr ([], false), w)
    | JObj d :: rest =>
        match Dict.get "clientSecret" d with
        | Some (JStr s) =>
            if is_plaintext (Some (JStr s))
            then let (tok, w1) := _encrypt_secret s w in
                 let (r, w2) := migrate rest w1 in
                 (try! x <- r;
                  inr (JObj (Dict.set "clientSecret" (JStr tok) d) :: fst x, true),
                  w2)
            else let (r, w1) := migrate rest w in
                 (try! x <- r; inr (JObj d :: fst x, snd x), w1)
        | _ => let (r, w1) := migrate rest w in
               (try! x <- r; inr (JObj d :: fst x, snd x), w1)
        end
    | _ :: _ => (inl AttributeError, w)
    end.

(** The value [tenants] after its items were mutated in place: only a
    list has items that can be mutated. *)
Definition with_items (tenants : json) (items : list json) : json :=
  match tenants with
  | JList _ => JList items
  | _ => tenants
  end.

(** The body of [_read_tenants], one critical section. *)
Definition read_tenants_locked : action json :=
  fun w =>
    match tenants_file w with
    | None => (JList [], w)
    | Some t =>
        match json_loads t with
        | None => (JList [], w)
        | Some tenants =>
            match py_iter tenants with
            | inl _ => (JList [], w)
            | inr items =>
                match migrate items w with
                | (inl _, w1) => (JList [], w1)
                | (inr (items', changed), w1) =>
                    let tenants' := with_items tenants items' in
                    if changed
                    then (tenants', write_text (json_dumps tenants') w1)
                    else (tenants', w1)
                end
            end
        end
    end.

Definition _read_tenants : prog json := atomic read_tenants_locked.

(** The body of [_write_tenants], one critical section. *)
Definition write_tenants_locked (tenants : json) : action unit :=
  fun w => (tt, write_text (json_dumps tenants) w).

Definition _write_tenants (tenants : json) : prog unit :=
  atomic (write_tenants_locked tenants).

(** ** Tenant CRUD handlers *)

Definition error_body (msg : string) : json := JObj [("error", JStr msg)].

(** [request.get_json(force=True) or {}]. *)
Definition payload_of (body : json) : json := py_or body (JObj []).

Definition str_ (v : json) : string := py_str repr_container v.

(** [k in payload and str(payload[k]).strip()], as a truth value.  A list
    or string payload that contains [k] raises at [payload[k]]; a number
    or [True] raises at [k in payload]. *)
Definition field_supplied (payload : json) (k : string) : exn + bool :=
  match payload with
  | JObj d =>
      match Dict.get k d with
      | Some v => inr (negb (String.eqb (py_strip (str_ v)) ""))
      | None => inr false
      end
  | JList l =>
      if existsb (fun v => match v with
                           | JStr s => String.eqb s k
                           | _ => false
                           end) l
      then inl TypeError else inr false
  | JStr s => if str_contains k s then inl TypeError else inr false
  | _ => inl TypeError
  end.

(** [all(... for k in required)], left to right. *)
Fixpoint all_supplied (payload : json) (required : list string) : exn + bool :=
  match required with
  | [] => inr true
  | k :: r =>
      try! b <- field_supplied payload k;
      if b then all_supplied payload r else inr false
  end.

Definition required : list string :=
  ["name"; "tenantId"; "clientId"; "clientSecret"].

(** [payload[k]]. *)
Definition py_item (k : string) (payload : json) : exn + json :=
  match payload with
  | JObj d => match Dict.get k d with
              | Some v => inr v
              | None => inl KeyError
              end
  | _ => inl TypeError
  end.

(** [str(payload[k]).strip()]. *)
Definition stripped_item (k : string) (payload : json) : exn + string :=
  try! v <- py_item k payload; inr (py_strip (str_ v)).

(** [int(payload.get(k, dflt) or 0)]. *)
Definition int_field (k : string) (dflt : json) (payload : json) : exn + Z :=
  try! v <- py_get k dflt payload; py_int (py_or v (JInt 0)).

(** The record without its secret, with the flag [hasSecret]. *)
Definition redact (item : dict) (has_secret : bool) : json :=
  JObj (Dict.set "hasSecret" (JBool has_secret) (Dict.pop "clientSecret" item)).

(** [tenants.insert(0, item)]: only a list has [insert]. *)
Definition py_insert0 (item : json) (tenants : json) : exn + json :=
  match tenants with
  | JList l => inr (JList (item :: l))
  | _ => inl AttributeError
  end.

(** The part of [new_item] after the id and the secret are drawn. *)
Definition new_item (payload : json) (id token : string) : exn + dict :=
  try! name <- stripped_item "name" payload;
  try! tenant <- stripped_item "tenantId" payload;
  try! client <- stripped_item "clientId" payload;
  try! active <- py_get "isActive" (JBool true) payload;
  try! last_sync <- py_get "lastSync" (JStr "") payload;
  try! users <- int_field "userCount" (JInt 0) payload;
  try! licenses <- int_field "licenseCount" (JInt 0) payload;
  inr [("id", JStr id);
       ("name", JStr name);
       ("tenantId", JStr tenant);
       ("clientId", JStr client);
       ("clientSecret", JStr token);
       ("isActive", JBool (py_truthy active));
       ("lastSync", last_sync);
       ("userCount", JInt users);
       ("licenseCount", JInt licenses)].

(** [create_tenant], [POST /api/tenants]. *)
Definition create_tenant (body : json) : prog reply :=
  let payload := payload_of body in
  match all_supplied payload required with
  | inl e => Ret (Crash e)
  | inr false => Ret (Reply (error_body "Missing required fields") 400)
  | inr true =>
      tenants <- _read_tenants ;;
      id <- atomic (fun w => (uuid4 (tick w), next_tick w)) ;;
      match (try! n <- stripped_item "name" payload;
             try! t <- stripped_item "tenantId" payload;
             try! c <- stripped_item "clientId" payload;
             stripped_item "clientSecret" payload) with
      | inl e => Ret (Crash e)
      | inr secret =>
          token <- atomic (_encrypt_secret secret) ;;
          match (try! item <- new_item payload id token;
                 try! tenants' <- py_insert0 (JObj item) tenants;
                 inr (item, tenants')) with
          | inl e => Ret (Crash e)
          | inr (item, tenants') =>
              _ <- _write_tenants tenants' ;;
              Ret (Reply (redact item true) 201)
          end
      end
  end.

(** The loop [for t in tenants: if t.get('id') == tenant_id: ...; break]:
    the items before the first record with that id, the record and the
    items after it; [None] when the loop ends without a match. *)
Fixpoint find_tenant (tenant_id : string) (items : list json)
  : exn + option (list json * dict * list json) :=
  match items with
  | [] => inr None
  | JObj d :: rest =>
      if id_is tenant_id d
      then inr (Some ([], d, rest))
      else try! r <- find_tenant tenant_id rest;
           inr (option_map (fun x => (JObj d :: fst (fst x), snd (fst x), snd x)) r)
  | _ :: _ => inl AttributeError
  end.

(** The dict that [update_tenant] passes to [t.update]. *)
Definition updated_fields (payload : json) (t : dict) : exn + dict :=
  try! name <- py_get "name" (Dict.get_default "name" (JStr "") t) payload;
  try! tenant <- py_get "tenantId" (Dict.get_default "tenantId" (JStr "") t) payload;
  try! client <- py_get "clientId" (Dict.get_default "clientId" (JStr "") t) payload;
  try! active <- py_get "isActive" (Dict.get_default "isActive" (JBool true) t) payload;
  try! last_sync <- py_get "lastSync" (Dict.get_default "lastSync" (JStr "") t) payload;
  try! users <- int_field "userCount" (Dict.get_default "userCount" (JInt 0) t) payload;
  try! licenses <- int_field "licenseCount" (Dict.get_default "licenseCount" (JInt 0) t) payload;
  inr [("name", JStr (py_strip (str_ name)));
       ("tenantId", JStr (py_strip (str_ tenant)));
       ("clientId", JStr (py_strip (str_ client)));
       ("isActive", JBool (py_truthy active));
       ("lastSync", last_sync);
       ("userCount", JInt users);
       ("licenseCount", JInt licenses)].

(** The new secret of an update, when one is supplied and not blank. *)
Definition supplied_secret (payload : json) : exn + option string :=
  try! b <- field_supplied payload "clientSecret";
  if b
  then try! plain <- stripped_item "clientSecret" payload; inr (Some plain)
  else inr None.

Definition not_found : reply := Reply (error_body "Tenant not found") 404.

(** [update_tenant], [PUT /api/tenants/<tenant_id>]. *)
Definition update_tenant (tenant_id : string) (body : json) : prog reply :=
  let payload := payload_of body in
  tenants <- _read_tenants ;;
  match (try! items <- py_iter tenants; find_tenant tenant_id items) with
  | inl e => Ret (Crash e)
  | inr None => Ret not_found
  | inr (Some (pre, t, post)) =>
      match (try! u <- updated_fields payload t;
             try! secret <- supplied_secret payload;
             inr (Dict.update u t, secret)) with
      | inl e => Ret (Crash e)
      | inr (t1, secret) =>
          updated <- match secret with
                     | Some plain =>
                         token <- atomic (_encrypt_secret plain) ;;
                         Ret (Dict.set "clientSecret" (JStr token) t1)
                     | None => Ret t1
                     end ;;
          if negb (py_truthy (JObj updated))
          then Ret not_found
          else _ <- _write_tenants (with_items tenants (pre ++ JObj updated :: post)) ;;
               Ret (Reply (redact updated
                             (py_truthy (Dict.get_default "clientSecret" JNull updated)))
                          200)
      end
  end.

(** [[t for t in tenants if t.get('id') != tenant_id]]. *)
Fixpoint without_id (tenant_id : string) (items : list json) : exn + list json :=
  match items with
  | [] => inr []
  | JObj d :: rest =>
      try! r <- without_id tenant_id rest;
      inr (if id_is tenant_id d then r else JObj d :: r)
  | _ :: _ => inl AttributeError
  end.

(** [delete_tenant], [DELETE /api/tenants/<tenant_id>]. *)
Definition delete_tenant (tenant_id : string) : prog reply :=
  tenants <- _read_tenants ;;
  match (try! items <- py_iter tenants;
         try! new_list <- without_id tenant_id items;
         try! n <- py_len tenants;
         inr (new_list, n)) with
  | inl e => Ret (Crash e)
  | inr (new_list, n) =>
      if (List.length new_list =? n)%nat
      then Ret not_found
      else _ <- _write_tenants (JList new_list) ;;
           Ret (Reply (JObj [("ok", JBool true)]) 200)
  end.

(** ** Credential resolver *)

(** The loop of [_get_tenant_credentials]. *)
Fixpoint find_credentials (tenant_id : string) (items : list json)
  : exn + json * json * json :=
  match items with
  | [] => inr (JStr "", JStr "", JStr "")
  | JObj d :: rest =>
      if id_is tenant_id d && py_truthy (Dict.get_default "isActive" (JBool false) d)
      then inr (Dict.get_default "tenantId" (JStr "") d,
                Dict.get_default "clientId" (JStr "") d,
                _decrypt_secret (Dict.get_default "clientSecret" (JStr "") d))
      else find_credentials tenant_id rest
  | _ :: _ => inl AttributeError
  end.

Definition _get_tenant_credentials (tenant_id : string)
  : prog (exn + json * json * json) :=
  tenants <- _read_tenants ;;
  Ret (try! items <- py_iter tenants; find_credentials tenant_id items).

(** ** Aggregation pipeline *)

Record metrics : Type := mkMetrics {
  totalUsers : Z;
  activeUsers : Z;
  disabledUsers : Z;
  totalLicenses : Z;
  usedLicenses : Z;
  availableLicenses : Z
}.

(** [len([u for u in users if u.get('accountEnabled', True)])]. *)
Fixpoint count_active (users : list json) : exn + nat :=
  match users with
  | [] => inr 0%nat
  | JObj u :: rest =>
      try! n <- count_active rest;
      inr (if py_truthy (Dict.get_default "accountEnabled" (JBool true) u)
           then S n else n)
  | _ :: _ => inl AttributeError
  end.

(** [acc + v] for an integer [acc]: Python adds integers and booleans. *)
Definition py_add (acc : Z) (v : json) : exn + Z :=
  match v with
  | JInt z => inr (acc + z)%Z
  | JBool b => inr (acc + (if b then 1 else 0))%Z
  | _ => inl TypeError
  end.

(** [sum(f(x) for x in items)], from the accumulator [acc]. *)
Fixpoint py_sum (f : json -> exn + json) (items : list json) (acc : Z) : exn + Z :=
  match items with
  | [] => inr acc
  | x :: rest =>
      try! v <- f x;
      try! acc' <- py_add acc v;
      py_sum f rest acc'
  end.

(** [lic.get('prepaidUnits', {}).get('enabled', 0)]. *)
Definition enabled_units (lic : json) : exn + json :=
  try! prepaid <- py_get "prepaidUnits" (JObj []) lic;
  py_get "enabled" (JInt 0) prepaid.

(** [lic.get('consumedUnits', 0)]. *)
Definition consumed_units (lic : json) : exn + json :=
  py_get "consumedUnits" (JInt 0) lic.

(** The block [# Calculate metrics] of [_collect_tenant_data]. *)
Definition calculate_metrics (users licenses : json) : exn + metrics :=
  try! total_users <- py_len users;
  try! us <- py_iter users;
  try! active_users <- count_active us;
  let disabled_users := (Z.of_nat total_users - Z.of_nat active_users)%Z in
  try! ls <- py_iter licenses;
  try! total_licenses <- py_sum enabled_units ls 0;
  try! used_licenses <- py_sum consumed_units ls 0;
  inr (mkMetrics (Z.of_nat total_users) (Z.of_nat active_users) disabled_users
                 total_licenses used_licenses
                 (total_licenses - used_licenses)%Z).

Definition metrics_json (m : metrics) : json :=
  JObj [("totalUsers", JInt (totalUsers m));
        ("activeUsers", JInt (activeUsers m));
        ("disabledUsers", JInt (disabledUsers m));
        ("totalLicenses", JInt (totalLicenses m));
        ("usedLicenses", JInt (usedLicenses m));
        ("availableLicenses", JInt (availableLicenses m));
        ("userStatus", JObj [("active", JInt (activeUsers m));
                             ("disabled", JInt (disabledUsers m))]);
        ("licenseStatus", JObj [("used", JInt (usedLicenses m));
                                ("available", JInt (availableLicenses m))])].

(** The body of one of [fetch_users], [fetch_licenses], [fetch_groups],
    [fetch_sites]: a failure becomes an empty collection. *)
Definition fetched (o : fetch_outcome) : json :=
  match o with
  | FetchJson body => body
  | FetchRaise => JObj [("value", JList [])]
  end.

Definition fetch (e : endpoint) (access_token : json) : prog json :=
  atomic (fun w => (fetched (graph_get e access_token), log (EvFetch e) w)).

(** The payload and the sync counters, from the four fetched bodies. *)
Definition aggregate (users_data licenses_data groups_data sites_data : json)
  : exn + json * metrics :=
  try! users <- py_get "value" (JList []) users_data;
  try! licenses <- py_get "value" (JList []) licenses_data;
  try! groups <- py_get "value" (JList []) groups_data;
  try! sites <- py_get "value" (JList []) sites_data;
  try! m <- calculate_metrics users licenses;
  inr (JObj [("users", users);
             ("groups", groups);
             ("sites", sites);
             ("licenses", licenses);
             ("metrics", metrics_json m)], m).

(** The block [# Update tenant sync info]. *)
Definition record_sync (tenant_id : string) (m : metrics) : prog (exn + unit) :=
  tenants <- _read_tenants ;;
  match (try! items <- py_iter tenants; find_tenant tenant_id items) with
  | inl e => Ret (inl e)
  | inr None => _ <- _write_tenants tenants ;; Ret (inr tt)
  | inr (Some (pre, t, post)) =>
      now <- atomic (fun w => (now_isoformat (tick w), next_tick w)) ;;
      let t' := Dict.set "licenseCount" (JInt (totalLicenses m))
                  (Dict.set "userCount" (JInt (totalUsers m))
                     (Dict.set "lastSync" (JStr now) t)) in
      _ <- _write_tenants (with_items tenants (pre ++ JObj t' :: post)) ;;
      Ret (inr tt)
  end.

Definition missing_credentials : reply :=
  Reply (error_body "Tenant not found or missing credentials") 404.

(** [_collect_tenant_data]. *)
Definition _collect_tenant_data (tenant_id : string) : prog reply :=
  creds <- _get_tenant_credentials tenant_id ;;
  match creds with
  | inl e => Ret (Crash e)
  | inr (tenant_id_val, client_id, client_secret) =>
      if negb (py_truthy tenant_id_val && py_truthy client_id
               && py_truthy client_secret)
      then Ret missing_credentials
      else
        token <- atomic (fun w =>
                   (acquire_token_for_client tenant_id_val client_id client_secret,
                    log (EvToken tenant_id_val client_id client_secret) w)) ;;
        match token with
        | TokenRaise e => Ret (Crash e)
        | TokenResult d =>
            match Dict.get "access_token" d with
            | None =>
                Ret (Reply (JObj [("error", JStr "Failed to acquire token for tenant");
                                  ("details", JObj d)]) 500)
            | Some access_token =>
                users_data <- fetch Users access_token ;;
                licenses_data <- fetch SubscribedSkus access_token ;;
                groups_data <- fetch Groups access_token ;;
                sites_data <- fetch Sites access_token ;;
                match aggregate users_data licenses_data groups_data sites_data with
                | inl e => Ret (Crash e)
                | inr (payload, m) =>
                    r <- record_sync tenant_id m ;;
                    match r with
                    | inl e => Ret (Crash e)
                    | inr _ => Ret (Reply payload 200)
                    end
                end
            end
        end
  end.

(** [get_tenant_data], [GET /api/tenants/<tenant_id>/data]. *)
Definition get_tenant_data (tenant_id : string) : prog reply :=
  _collect_tenant_data tenant_id.

(** [sync_tenant_data], [POST /api/tenants/<tenant_id>/sync]. *)
Definition sync_tenant_data (tenant_id : string) : prog reply :=
  r <- _collect_tenant_data tenant_id ;;
  if negb (Z.eqb (status_of r) 200)
  then Ret r
  else
    tenants <- _read_tenants ;;
    match (try! items <- py_iter tenants; find_tenant tenant_id items) with
    | inl e => Ret (Crash e)
    | inr None => Ret not_found
    | inr (Some (_, updated_tenant, _)) =>
        if negb (py_truthy (JObj updated_tenant))
        then Ret not_found
        else Ret (Reply (redact updated_tenant
                           (py_truthy (Dict.get_default "clientSecret" JNull
                                         updated_tenant)))
                        200)
    end.

(** The loop of [list_tenants].  [dict(t)] is modelled on dicts, the only
    items that [_read_tenants] returns. *)
Fixpoint redact_all (items : list json) : exn + list json :=
  match items with
  | [] => inr []
  | JObj t :: rest =>
      try! r <- redact_all rest;
      inr (redact t (py_truthy (Dict.get_default "clientSecret" JNull t)) :: r)
  | _ :: _ => inl TypeError
  end.

(** [list_tenants], [GET /api/tenants].  The handler has no [try]: [inl e]
    is an exception that leaves it. *)
Definition list_tenants : prog (exn + reply) :=
  tenants <- _read_tenants ;;
  Ret (try! items <- py_iter tenants;
       try! redacted <- redact_all items;
       inr (Reply (JObj [("tenants", JList redacted)]) 200)).

(** ** Concurrent handlers *)

(** Requests served by different threads: thread [i] runs [ps[i]], and a
    schedule names the thread that performs its next atomic action. *)
Definition pool : Type := list (prog reply).

Fixpoint set_nth {A : Type} (i : nat) (a : A) (l : list A) : list A :=
  match l, i with
  | [], _ => []
  | _ :: r, O => a :: r
  | x :: r, S j => x :: set_nth j a r
  end.

Definition step_thread (i : nat) (st : world * pool) : world * pool :=
  match nth_error (snd st) i with
  | Some (Act f k) =>
      let (b, w') := f (fst st) in (w', set_nth i (k b) (snd st))
  | _ => st
  end.

Definition run_schedule (schedule : list nat) (st : world * pool) : world * pool :=
  fold_left (fun s i => step_thread i s) schedule st.

(** The reply of a thread that has finished. *)
Definition finished (ps : pool) (i : nat) : option reply :=
  match nth_error ps i with
  | Some (Ret r) => Some r
  | _ => None
  end.

End Backend.

Arguments Ret {E A} a.
Arguments Act {E A B} f k.

(** ** A test double for the libraries

    A concrete [Externals] on which the handlers can be evaluated: file
    contents are the parsed JSON value ([None] for a file that does not
    parse), the cipher prepends a fixed envelope and a nonce to the
    plaintext. *)

Module Double.

Definition envelope : string := "gAAAAABdouble-fernet-".

Fixpoint nonce (n : nat) : string :=
  match n with
  | O => ":"
  | S m => String "A" (nonce m)
  end.

Definition encrypt (n : nat) (plain : string) : string :=
  envelope ++ nonce n ++ plain.

Fixpoint drop_prefix (p s : string) : option string :=
  match p, s with
  | EmptyString, _ => Some s
  | String a p', String b s' =>
      if Ascii.eqb a b then drop_prefix p' s' else None
  | String _ _, EmptyString => None
  end.

Fixpoint drop_nonce (s : string) : option string :=
  match s with
  | EmptyString => None
  | String c r =>
      if Ascii.eqb c ":" then Some r
      else if Ascii.eqb c "A" then drop_nonce r
           else None
  end.

Definition decrypt (token : string) : option string :=
  match drop_prefix envelope token with
  | Some r => drop_nonce r
  | None => None
  end.

Definition repr (v : json) : string :=
  match v with
  | JList _ => "[...]"
  | _ => "{...}"
  end.

(** The token acquirer always answers with the bearer token ["bearer"]. *)
Definition acquire (a b c : json) : token_outcome :=
  TokenResult [("access_token", JStr "bearer")].

(** The double with a given Graph service. *)
Definition externals (graph : endpoint -> json -> fetch_outcome) : Externals :=
  {| text := option json;
     json_loads := fun t => t;
     json_dumps := fun v => Some v;
     fernet_encrypt := encrypt;
     fernet_decrypt := decrypt;
     uuid4 := fun n => "uuid-" ++ str_of_Z (Z.of_nat n);
     now_isoformat := fun n => "2024-01-01T00:00:00." ++ str_of_Z (Z.of_nat n);
     repr_container := repr;
     acquire_token_for_client := acquire;
     graph_get := graph |}.

(** A Graph service where the groups endpoint fails. *)
Definition graph_groups_down (e : endpoint) (token : json) : fetch_outcome :=
  match e with
  | Users =>
      FetchJson (JObj [("value", JList [JObj [("accountEnabled", JBool true)];
                                        JObj [("accountEnabled", JBool false)];
                                        JObj []])])
  | SubscribedSkus =>
      FetchJson (JObj [("value",
                        JList [JObj [("prepaidUnits", JObj [("enabled", JInt 10)]);
                                     ("consumedUnits", JInt 4)];
                               JObj [("prepaidUnits", JObj [("enabled", JInt 5)]);
                                     ("consumedUnits", JInt 5)]])])
  | Groups => FetchRaise
  | Sites => FetchJson (JObj [("value", JList [JObj [("id", JStr "site-1")]])])
  end.

Definition E : Externals := externals graph_groups_down.

(** A world whose store holds the JSON value [v]. *)
Definition store (v : json) : @world E := @mkWorld E (Some (Some v)) 0 [].

(** The stored JSON value. *)
Definition stored (w : @world E) : option json :=
  match tenants_file w with
  | Some t => t
  | None => None
  end.

(** The field [k] of the stored records, in order. *)
Definition field (k : string) (w : @world E) : list (option json) :=
  match stored w with
  | Some (JList l) =>
      map (fun t => match t with
                    | JObj d => Dict.get k d
                    | _ => None
                    end) l
  | _ => []
  end.

(** A store with one legacy plaintext secret and one encrypted secret;
    tenant ["a"] is active, tenant ["b"] is not. *)
Definition legacy_store : @world E :=
  store (JList [JObj [("id", JStr "a");
                      ("name", JStr "Contoso");
                      ("tenantId", JStr "dir-a");
                      ("clientId", JStr "app-a");
                      ("clientSecret", JStr "plain-secret");
                      ("isActive", JBool true)];
                JObj [("id", JStr "b");
                      ("name", JStr "Fabrikam");
                      ("tenantId", JStr "dir-b");
                      ("clientId", JStr "app-b");
                      ("clientSecret", JStr (encrypt 7 "s3cret"));
                      ("isActive", JBool false)]]).

(** A record as [create_tenant] writes it. *)
Definition created_record : dict :=
  [("id", JStr "t1");
   ("name", JStr "Contoso");
   ("tenantId", JStr "dir-1");
   ("clientId", JStr "app-1");
   ("clientSecret", JStr (encrypt 3 "s3cret"));
   ("isActive", JBool true);
   ("lastSync", JStr "");
   ("userCount", JInt 0);
   ("licenseCount", JInt 0)].

Definition created_store : @world E := store (JList [JObj created_record]).

(** The same record with blanks around its name, as a hand-written store
    file can hold it. *)
Definition untrimmed_store : @world E :=
  store (JList [JObj (Dict.set "name" (JStr " Contoso ") created_record)]).

Definition request_fields (name secret : string) : dict :=
  [("name", JStr name);
   ("tenantId", JStr ("dir-" ++ name));
   ("clientId", JStr ("app-" ++ name));
   ("clientSecret", JStr secret)].

Definition request (name secret : string) : json :=
  JObj (request_fields name secret).

(** Two create requests served by two threads. *)
Definition two_creates : pool (E := E) :=
  [create_tenant (request "A" " secret-a "); create_tenant (request "B" "secret-b")].

(** Both threads read the store before either writes it. *)
Definition racing_schedule : list nat := [0; 1; 0; 0; 0; 1; 1; 1]%nat.

(** The first thread finishes before the second starts. *)
Definition serial_schedule : list nat := [0; 0; 0; 0; 1; 1; 1; 1]%nat.

(** A store file that does not list records only: its second item is a
    number. *)
Definition broken_store : @world E :=
  store (JList [JObj [("id", JStr "a"); ("clientSecret", JStr "plain-secret")];
                JInt 5]).

(** No store file yet. *)
Definition missing_store : @world E := @mkWorld E None 0 [].

(** A Graph service whose users endpoint answers with a JSON list. *)
Definition graph_list_body (e : endpoint) (token : json) : fetch_outcome :=
  match e with
  | Users => FetchJson (JList [])
  | _ => FetchJson (JObj [("value", JList [])])
  end.

(** The double with that Graph service, and its store with tenant ["a"]. *)
Definition E_list_body : Externals := externals graph_list_body.

Definition active_record : dict :=
  [("id", JStr "a");
   ("tenantId", JStr "dir-a");
   ("clientId", JStr "app-a");
   ("clientSecret", JStr (encrypt 3 "s3cret"));
   ("isActive", JBool true)].

Definition list_body_store : @world E_list_body :=
  @mkWorld E_list_body (Some (Some (JList [JObj active_record]))) 0 [].

(** The double with a token acquirer that answers without a token. *)
Definition denied_answer : dict := [("error", JStr "invalid_client")].

Definition E_denied : Externals :=
  {| text := option json;
     json_loads := fun t => t;
     json_dumps := fun v => Some v;
     fernet_encrypt := encrypt;
     fernet_decrypt := decrypt;
     uuid4 := fun n => "uuid-" ++ str_of_Z (Z.of_nat n);
     now_isoformat := fun n => "2024-01-01T00:00:00." ++ str_of_Z (Z.of_nat n);
     repr_container := repr;
     acquire_token_for_client := fun _ _ _ => TokenResult denied_answer;
     graph_get := graph_groups_down |}.

Definition denied_store : @world E_denied :=
  @mkWorld E_denied (Some (Some (JList [JObj active_record]))) 0 [].

(** A counter that [str.strip] would trim to ["12"] and that [int]
    rejects: it starts with the separator U+001C. *)
Definition separator_counter : string := String (ascii_of_nat 28) "12".

(** A run of [n] digits 1. *)
Fixpoint ones (n : nat) : string :=
  match n with
  | O => EmptyString
  | S m => String "1" (ones m)
  end.

(** The fields that an update of [created_record] assigns for a request
    body [d]. *)
Definition update_of (d : dict) : dict :=
  match updated_fields (E := E) (JObj d) created_record with
  | inr u => u
  | inl _ => []
  end.

Definition statuses (ps : pool (E := E)) : list (option Z) :=
  map (fun p => match p with
                | Ret r => Some (status_of r)
                | Act _ _ => None
                end) ps.

End Double.

(** ** Predicates used in the statements *)

(** A JSON object. *)
Definition is_record (t : json) : bool :=
  match t with
  | JObj _ => true
  | _ => false
  end.

(** A record whose [clientSecret] is a non-empty string outside the
    envelope format. *)
Definition legacy_secret (t : json) : bool :=
  match t with
  | JObj d => is_plaintext (Dict.get "clientSecret" d)
  | _ => false
  end.

(** The items a loop over [v] visits. *)
Definition items_of (v : json) : list json :=
  match py_iter v with
  | inr l => l
  | inl _ => []
  end.

(** The relation between a record on disk and the record that
    [_read_tenants] returns for it. *)
Definition migrated {E : Externals} (t t' : json) : Prop :=
  match t with
  | JObj d =>
      match Dict.get "clientSecret" d with
      | Some (JStr s) =>
          if is_plaintext (Some (JStr s))
          then exists n, t' = JObj (Dict.set "clientSecret" (JStr (fernet_encrypt n s)) d)
                         /\ _decrypt_secret (JStr (fernet_encrypt n s)) = JStr s
          else t' = t
      | _ => t' = t
      end
  | _ => False
  end.

(** The spec's reading of an active user: [accountEnabled] is true or
    absent. *)
Definition enabled_or_absent (u : json) : bool :=
  match u with
  | JObj d => match Dict.get "accountEnabled" d with
              | None => true
              | Some (JBool true) => true
              | Some _ => false
              end
  | _ => false
  end.

(** A Graph user object: [accountEnabled], when present, is a boolean or
    null. *)
Definition user_object (u : json) : bool :=
  match u with
  | JObj d => match Dict.get "accountEnabled" d with
              | None | Some (JBool _) | Some JNull => true
              | Some _ => false
              end
  | _ => false
  end.

(** The spec's reading of the units of a SKU: a missing field counts 0. *)
Definition prepaid_enabled (lic : json) : Z :=
  match lic with
  | JObj d => match Dict.get "prepaidUnits" d with
              | Some (JObj p) => match Dict.get "enabled" p with
                                 | Some (JInt z) => z
                                 | _ => 0
                                 end
              | _ => 0
              end
  | _ => 0
  end%Z.

Definition consumed (lic : json) : Z :=
  match lic with
  | JObj d => match Dict.get "consumedUnits" d with
              | Some (JInt z) => z
              | _ => 0
              end
  | _ => 0
  end%Z.

(** A Graph SKU object: the unit counts, when present, are integers. *)
Definition license_object (lic : json) : bool :=
  match lic with
  | JObj d =>
      match Dict.get "prepaidUnits" d with
      | None => true
      | Some (JObj p) => match Dict.get "enabled" p with
                         | None | Some (JInt _) => true
                         | Some _ => false
                         end
      | Some _ => false
      end
      && match Dict.get "consumedUnits" d with
         | None | Some (JInt _) => true
         | Some _ => false
         end
  | _ => false
  end.

Definition sumZ (l : list Z) : Z := fold_right Z.add 0%Z l.

(** A stored record on which an update writes back what it read: the
    three labels are trimmed strings, [isActive] is a boolean, [lastSync]
    is present and the two counters are integers. *)
Record normalised (t : dict) : Prop := {
  norm_name : exists s, Dict.get "name" t = Some (JStr s) /\ py_strip s = s;
  norm_tenant : exists s, Dict.get "tenantId" t = Some (JStr s) /\ py_strip s = s;
  norm_client : exists s, Dict.get "clientId" t = Some (JStr s) /\ py_strip s = s;
  norm_active : exists b, Dict.get "isActive" t = Some (JBool b);
  norm_sync : exists v, Dict.get "lastSync" t = Some v;
  norm_users : exists z, Dict.get "userCount" t = Some (JInt z);
  norm_licenses : exists z, Dict.get "licenseCount" t = Some (JInt z)
}.




(** Whether a read of this world rewrites the store: the file holds a
    list of records, one of them with a legacy secret. *)
Definition holds_legacy_secret {E : Externals} (w : world) : bool :=
  match tenants_file w with
  | Some t => match json_loads t with
              | Some (JList items) =>
                  forallb is_record items && existsb legacy_secret items
              | _ => false
              end
  | None => false
  end.

(** A record with the identifier [tenant_id]. *)
Definition has_id (tenant_id : string) (t : json) : bool :=
  match t with
  | JObj d => id_is tenant_id d
  | _ => false
  end.

(** A Python dict has each key once. *)
Definition distinct_keys (t : json) : Prop :=
  match t with
  | JObj d => NoDup (map fst d)
  | _ => True
  end.

(** The secret that the resolver hands out for a stored secret: a legacy
    plaintext is handed out as it is, anything else goes through
    [_decrypt_secret]. *)
Definition effective_secret {E : Externals} (v : json) : json :=
  if is_plaintext (Some v) then v else _decrypt_secret v.

(** The credentials of the first active record with the identifier, read
    off the records as they are on disk. *)
Fixpoint stored_credentials {E : Externals} (tenant_id : string)
  (items : list json) : json * json * json :=
  match items with
  | [] => (JStr "", JStr "", JStr "")
  | t :: rest =>
      match t with
      | JObj d =>
          if id_is tenant_id d
             && py_truthy (Dict.get_default "isActive" (JBool false) d)
          then (Dict.get_default "tenantId" (JStr "") d,
                Dict.get_default "clientId" (JStr "") d,
                effective_secret (Dict.get_default "clientSecret" (JStr "") d))
          else stored_credentials tenant_id rest
      | _ => stored_credentials tenant_id rest
      end
  end.


(** A field of a JSON object. *)
Definition field_of (k : string) (v : json) : option json :=
  match v with
  | JObj d => Dict.get k d
  | _ => None
  end.

(** What a handler shows of a stored record. *)
Definition redacted (t : json) : json :=
  match t with
  | JObj d => redact d (py_truthy (Dict.get_default "clientSecret" JNull d))
  | _ => t
  end.

(** A store that does not hold a list of records: no file, a file that
    does not parse, or a list with an item that is not an object. *)
Definition unreadable {E : Externals} (w : world) : Prop :=
  match tenants_file w with
  | None => True
  | Some t => match json_loads t with
              | None => True
              | Some (JList items) => forallb is_record items = false
              | Some _ => False
              end
  end.

(** [str(d[k]).strip()] for a key of a request. *)
Definition trimmed {E : Externals} (k : string) (d : dict) : string :=
  py_strip (str_ (Dict.get_default k JNull d)).

(** A required field that is present and not blank. *)
Definition supplied {E : Externals} (d : dict) (k : string) : bool :=
  match Dict.get k d with
  | Some v => negb (String.eqb (py_strip (str_ v)) "")
  | None => false
  end.

(** What a read returns when it migrates nothing: the parsed file when
    its items are records, the empty list otherwise. *)
Definition stored_value {E : Externals} (w : world) : json :=
  match tenants_file w with
  | None => JList []
  | Some t =>
      match json_loads t with
      | None => JList []
      | Some tenants =>
          match py_iter tenants with
          | inl _ => JList []
          | inr items => if forallb is_record items then tenants else JList []
          end
      end
  end.

(** * Properties *)

Section Properties.

Context {E : Externals}.

(** ** Handlers as sequences of actions *)

Lemma run_bind {A B : Type} (p : prog A) (g : A -> prog B) (w : world) :
  run (bind p g) w = let (a, w') := run p w in run (g a) w'.
Proof.
  revert w. induction p as [a | C f k IH]; intro w; simpl.
  - reflexivity.
  - destruct (f w) as [b w']. apply IH.
Qed.

Lemma run_atomic {A : Type} (f : action A) (w : world) :
  run (atomic f) w = f w.
Proof. unfold atomic. simpl. destruct (f w); reflexivity. Qed.

(** ** Dictionaries *)

Lemma get_set_same (k : string) (v : json) (d : dict) :
  Dict.get k (Dict.set k v d) = Some v.
Proof.
  induction d as [| [k' v'] r IH]; simpl.
  - now rewrite String.eqb_refl.
  - destruct (String.eqb k k') eqn:Hk; simpl.
    + now rewrite String.eqb_refl.
    + now rewrite Hk.
Qed.

Lemma get_set_other (k k' : string) (v : json) (d : dict) :
  k' <> k -> Dict.get k' (Dict.set k v d) = Dict.get k' d.
Proof.
  intro Hne. induction d as [| [k0 v0] r IH]; simpl.
  - destruct (String.eqb_spec k' k); [contradiction | reflexivity].
  - destruct (String.eqb_spec k k0) as [-> | Hk]; simpl.
    + destruct (String.eqb_spec k' k0); [contradiction | reflexivity].
    + destruct (String.eqb_spec k' k0); [reflexivity | exact IH].
Qed.

Lemma set_unchanged (k : string) (v : json) (d : dict) :
  Dict.get k d = Some v -> Dict.set k v d = d.
Proof.
  induction d as [| [k' v'] r IH]; simpl; [discriminate |].
  destruct (String.eqb_spec k k') as [-> | Hk]; intro H.
  - now injection H as ->.
  - now rewrite IH.
Qed.

(** ** Secret cipher *)

Lemma looks_encrypted_truthy (v : json) :
  _looks_encrypted v = true -> py_truthy v = true.
Proof.
  destruct v as [| | | s | |]; simpl; try discriminate.
  destruct s; [discriminate | reflexivity].
Qed.

Lemma decrypt_not_encrypted (v : json) :
  _looks_encrypted v = false -> _decrypt_secret v = v.
Proof.
  intro H. unfold _decrypt_secret. rewrite H.
  now rewrite orb_true_r.
Qed.

Lemma decrypt_encrypted (s : string) :
  _looks_encrypted (JStr s) = true ->
  _decrypt_secret (JStr s) =
    match fernet_decrypt s with
    | Some plain => JStr plain
    | None => JStr ""
    end.
Proof.
  intro H. unfold _decrypt_secret.
  rewrite H, (looks_encrypted_truthy _ H). reflexivity.
Qed.

Lemma looks_encrypted_false_iff (s : string) :
  _looks_encrypted (JStr s) = false <->
  s = "" \/ startswith "gAAAA" s = false \/ (String.length s <= 20)%nat.
Proof.
  unfold _looks_encrypted. rewrite andb_false_iff, Nat.ltb_ge. split.
  - intros [H | H]; auto.
  - intros [-> | [H | H]]; auto.
Qed.

(** C10.  A string outside the envelope format (empty, not starting with
    "gAAAA", or of length at most 20) is returned by [_decrypt_secret]
    as it is; a string in the envelope format that Fernet rejects gives
    the empty string; and a non-empty string gives the empty string only
    when it is in the envelope format and Fernet rejects it or decrypts
    it to the empty plaintext. *)
Theorem decrypt_secret_passthrough :
  (forall s, s = "" \/ startswith "gAAAA" s = false \/ (String.length s <= 20)%nat ->
             _decrypt_secret (JStr s) = JStr s)
  /\ (forall s, _looks_encrypted (JStr s) = true -> fernet_decrypt s = None ->
                _decrypt_secret (JStr s) = JStr "")
  /\ (forall s, s <> "" -> _decrypt_secret (JStr s) = JStr "" ->
                _looks_encrypted (JStr s) = true
                /\ (fernet_decrypt s = None \/ fernet_decrypt s = Some "")).
Proof.
  split; [| split].
  - intros s H. apply decrypt_not_encrypted.
    now apply looks_encrypted_false_iff.
  - intros s H Hd. rewrite (decrypt_encrypted _ H), Hd. reflexivity.
  - intros s Hs H.
    destruct (_looks_encrypted (JStr s)) eqn:Hl.
    + split; [reflexivity |].
      rewrite (decrypt_encrypted _ Hl) in H.
      destruct (fernet_decrypt s) as [p |]; [right | left; reflexivity].
      now injection H as ->.
    + rewrite (decrypt_not_encrypted _ Hl) in H.
      injection H as H. contradiction.
Qed.

(** ** Tenant store *)

Context {OK : ExternalsOK E}.

Lemma encrypt_roundtrip (n : nat) (p : string) :
  _decrypt_secret (JStr (fernet_encrypt n p)) = JStr p.
Proof.
  rewrite (decrypt_encrypted _ (token_envelope n p)).
  now rewrite decrypt_encrypt.
Qed.

Lemma token_not_plaintext (n : nat) (p : string) :
  is_plaintext (Some (JStr (fernet_encrypt n p))) = false.
Proof.
  unfold is_plaintext. rewrite (token_envelope n p). apply andb_false_r.
Qed.

Lemma writes_write_text (t : text) (w : world) :
  writes (write_text t w) = S (writes w).
Proof.
  unfold writes, write_text. simpl.
  rewrite filter_app, length_app. simpl. lia.
Qed.

Lemma migrate_no_legacy (items : list json) (w : world) :
  forallb is_record items = true ->
  existsb legacy_secret items = false ->
  migrate items w = (inr (items, false), w).
Proof.
  induction items as [| t rest IH]; intros Hrec Hleg; [reflexivity |].
  simpl in Hrec, Hleg.
  apply andb_true_iff in Hrec as [Ht Hrec].
  apply orb_false_iff in Hleg as [Hl Hleg].
  destruct t as [| | | | | d]; try discriminate.
  simpl in Hl. cbn [migrate].
  destruct (Dict.get "clientSecret" d) as [[| | | s | |] |];
    try (rewrite (IH Hrec Hleg); reflexivity).
  rewrite Hl, (IH Hrec Hleg). reflexivity.
Qed.

Lemma migrate_records (items : list json) (w : world) :
  forallb is_record items = true ->
  exists items' w1,
    migrate items w = (inr (items', existsb legacy_secret items), w1)
    /\ Forall2 migrated items items'
    /\ tenants_file w1 = tenants_file w
    /\ trace w1 = trace w.
Proof.
  revert w. induction items as [| t rest IH]; intros w Hrec.
  - exists [], w. repeat split. constructor.
  - simpl in Hrec. apply andb_true_iff in Hrec as [Ht Hrec].
    destruct t as [| | | | | d]; try discriminate.
    assert (Hkeep : forall w0,
               exists items' w1,
                 (let (r, w1) := migrate rest w0 in
                  (try! x <- r; inr (JObj d :: fst x, snd x), w1))
                 = (inr (JObj d :: items', existsb legacy_secret rest), w1)
                 /\ Forall2 migrated rest items'
                 /\ tenants_file w1 = tenants_file w0
                 /\ trace w1 = trace w0).
    { intro w0. destruct (IH w0 Hrec) as (items' & w1 & Hm & HF & Hf & Ht').
      exists items', w1. rewrite Hm. simpl. auto. }
    cbn [migrate existsb]. unfold legacy_secret at 1.
    destruct (Dict.get "clientSecret" d) as [[| | | s | |] |] eqn:Hs;
      try (destruct (Hkeep w) as (items' & w1 & Hm & HF & Hf & Ht');
           exists (JObj d :: items'), w1; rewrite Hm;
           repeat split; auto;
           constructor; [unfold migrated; rewrite Hs; reflexivity | exact HF]).
    destruct (is_plaintext (Some (JStr s))) eqn:Hp.
    + unfold _encrypt_secret.
      destruct (IH (next_tick w) Hrec) as (items' & w1 & Hm & HF & Hf & Ht').
      exists (JObj (Dict.set "clientSecret" (JStr (fernet_encrypt (tick w) s)) d)
                :: items'), w1.
      rewrite Hm. simpl. repeat split; auto.
      constructor; [| exact HF].
      unfold migrated. rewrite Hs, Hp.
      exists (tick w). split; [reflexivity | apply encrypt_roundtrip].
    + destruct (Hkeep w) as (items' & w1 & Hm & HF & Hf & Ht').
      exists (JObj d :: items'), w1. rewrite Hm.
      repeat split; auto.
      constructor; [unfold migrated; rewrite Hs, Hp; reflexivity | exact HF].
Qed.

Lemma migrated_clean (items items' : list json) :
  Forall2 migrated items items' ->
  forallb is_record items' = true /\ existsb legacy_secret items' = false.
Proof.
  induction 1 as [| t t' r r' Ht _ IH]; [split; reflexivity |].
  destruct IH as [IH1 IH2]. simpl. rewrite IH1, IH2.
  unfold migrated in Ht.
  destruct t as [| | | | | d]; try contradiction.
  destruct (Dict.get "clientSecret" d) as [[| | | s | |] |] eqn:Hs;
    try (subst t'; simpl; rewrite Hs; split; reflexivity).
  destruct (is_plaintext (Some (JStr s))) eqn:Hp.
  - destruct Ht as (n & -> & _). simpl.
    rewrite get_set_same, token_not_plaintext. split; reflexivity.
  - subst t'. simpl. rewrite Hs, Hp. split; reflexivity.
Qed.

Lemma read_list (w : world) (t : text) (items : list json) :
  tenants_file w = Some t ->
  json_loads t = Some (JList items) ->
  read_tenants_locked w =
    match migrate items w with
    | (inl _, w1) => (JList [], w1)
    | (inr (items', changed), w1) =>
        (JList items',
         if changed then write_text (json_dumps (JList items')) w1 else w1)
    end.
Proof.
  intros Hfile Hload. unfold read_tenants_locked.
  rewrite Hfile, Hload. cbn [py_iter with_items].
  destruct (migrate items w) as [[e | [items' []]] w1]; reflexivity.
Qed.

(** C1.  On a store file that holds a list of records, [_read_tenants]
    returns the list in which every record with a legacy plaintext secret
    has that secret encrypted in place (it decrypts to the old value) and
    every other record is as it was; the file is rewritten, once, exactly
    when some record was migrated; and a second read returns the same list
    and changes nothing. *)
Theorem read_tenants_migrates_once
  (w : world) (t : text) (items : list json) :
  tenants_file w = Some t ->
  json_loads t = Some (JList items) ->
  forallb is_record items = true ->
  exists items' w1,
    run _read_tenants w = (JList items', w1)
    /\ Forall2 migrated items items'
    /\ (if existsb legacy_secret items
        then tenants_file w1 = Some (json_dumps (JList items'))
             /\ writes w1 = S (writes w)
        else tenants_file w1 = tenants_file w /\ writes w1 = writes w)
    /\ run _read_tenants w1 = (JList items', w1).
Proof.
  intros Hfile Hload Hrec.
  destruct (migrate_records items w Hrec) as (items' & w1 & Hm & HF & Hf & Ht).
  destruct (migrated_clean _ _ HF) as [Hrec' Hleg'].
  unfold _read_tenants. rewrite run_atomic.
  rewrite (read_list w t items Hfile Hload), Hm.
  destruct (existsb legacy_secret items) eqn:Hleg.
  - exists items', (write_text (json_dumps (JList items')) w1).
    split; [reflexivity |]. split; [exact HF |]. split.
    + split; [reflexivity |].
      rewrite writes_write_text. unfold writes. now rewrite Ht.
    + rewrite run_atomic.
      rewrite (read_list (write_text (json_dumps (JList items')) w1)
                 (json_dumps (JList items')) items' eq_refl (loads_dumps _)).
      now rewrite (migrate_no_legacy _ _ Hrec' Hleg').
  - rewrite (migrate_no_legacy _ _ Hrec Hleg) in Hm.
    injection Hm as <- <-.
    exists items, w. split; [reflexivity |]. split; [exact HF |].
    split; [split; reflexivity |].
    rewrite run_atomic, (read_list w t items Hfile Hload).
    now rewrite (migrate_no_legacy _ _ Hrec Hleg).
Qed.

Lemma migrate_fails (items : list json) (w : world) :
  forallb is_record items = false ->
  exists e w1,
    migrate items w = (inl e, w1)
    /\ tenants_file w1 = tenants_file w
    /\ trace w1 = trace w.
Proof.
  revert w. induction items as [| t rest IH]; intros w Hrec; [discriminate |].
  simpl in Hrec.
  destruct t as [| | | | | d];
    try (exists AttributeError, w; repeat split; reflexivity).
  simpl in Hrec. cbn [migrate].
  assert (Hkeep : forall w0 (g : list json * bool -> exn + list json * bool),
             exists e w1,
               (let (r, w1) := migrate rest w0 in (try! x <- r; g x, w1))
               = (inl e, w1)
               /\ tenants_file w1 = tenants_file w0
               /\ trace w1 = trace w0).
  { intros w0 g. destruct (IH w0 Hrec) as (e & w1 & Hm & Hf & Ht).
    exists e, w1. rewrite Hm. auto. }
  destruct (Dict.get "clientSecret" d) as [[| | | s | |] |]; try apply Hkeep.
  destruct (is_plaintext (Some (JStr s))); [| apply Hkeep].
  unfold _encrypt_secret.
  destruct (Hkeep (next_tick w)
              (fun x => inr (JObj (Dict.set "clientSecret"
                                     (JStr (fernet_encrypt (tick w) s)) d)
                               :: fst x, true)))
    as (e & w1 & Hm & Hf & Ht).
  exists e, w1. auto.
Qed.

Lemma records_of_keys (d : dict) :
  forallb is_record (map (fun kv => JStr (fst kv)) d) = true -> d = [].
Proof. destruct d; [reflexivity | discriminate]. Qed.

Lemma records_of_chars (s : string) :
  forallb is_record (chars s) = true -> s = "".
Proof. destruct s; [reflexivity | discriminate]. Qed.

(** What every read returns and does: the value read iterates over
    records without legacy secrets, and the file is rewritten with that
    value exactly when the store held a legacy secret. *)
Lemma read_result (w : world) :
  exists r w1 items,
    read_tenants_locked w = (r, w1)
    /\ py_iter r = inr items
    /\ forallb is_record items = true
    /\ existsb legacy_secret items = false
    /\ tenants_file w1 =
         (if holds_legacy_secret w then Some (json_dumps r) else tenants_file w)
    /\ trace w1 =
         (trace w ++ (if holds_legacy_secret w then [EvWrite (json_dumps r)] else []))%list.
Proof.
  assert (Hempty : forall w1,
             tenants_file w1 = tenants_file w -> trace w1 = trace w ->
             holds_legacy_secret w = false ->
             exists r w2 items,
               (JList [], w1) = (r, w2)
               /\ py_iter r = inr items
               /\ forallb is_record items = true
               /\ existsb legacy_secret items = false
               /\ tenants_file w2 =
                    (if holds_legacy_secret w then Some (json_dumps r)
                     else tenants_file w)
               /\ trace w2 =
                    (trace w ++ (if holds_legacy_secret w
                                 then [EvWrite (json_dumps r)] else []))%list).
  { intros w1 Hf Ht Hh. exists (JList []), w1, []. rewrite Hh, app_nil_r.
    repeat split; assumption. }
  unfold read_tenants_locked, holds_legacy_secret in *.
  destruct (tenants_file w) as [t |] eqn:Hfile; [| now apply Hempty].
  destruct (json_loads t) as [tenants |] eqn:Hload; [| now apply Hempty].
  destruct (py_iter tenants) as [e | items] eqn:Hiter.
  { apply Hempty; auto. destruct tenants; try reflexivity; discriminate. }
  destruct (forallb is_record items) eqn:Hrec.
  - destruct (migrate_records items w Hrec) as (items' & w1 & Hm & HF & Hf & Ht).
    destruct (migrated_clean _ _ HF) as [Hrec' Hleg'].
    rewrite Hm.
    destruct tenants as [| | | s | l | d]; try discriminate;
      injection Hiter as Hiter; subst items.
    + apply records_of_chars in Hrec. subst s.
      injection Hm as <- <-. simpl.
      exists (JStr ""), w, []. rewrite app_nil_r. repeat split; assumption.
    + rewrite Hrec. cbn [andb with_items].
      destruct (existsb legacy_secret l).
      * exists (JList items'), (write_text (json_dumps (JList items')) w1), items'.
        simpl. rewrite Ht. repeat split; assumption.
      * exists (JList items'), w1, items'.
        rewrite app_nil_r, Hf, Ht. repeat split; assumption.
    + apply records_of_keys in Hrec. subst d.
      injection Hm as <- <-. simpl.
      exists (JObj []), w, []. rewrite app_nil_r. repeat split; assumption.
  - destruct (migrate_fails items w Hrec) as (e & w1 & Hm & Hf & Ht).
    rewrite Hm. apply Hempty; [congruence | exact Ht |].
    destruct tenants as [| | | s | l | d]; try reflexivity.
    injection Hiter as ->. now rewrite Hrec.
Qed.

Lemma py_len_iter (v : json) (items : list json) :
  py_iter v = inr items -> py_len v = inr (List.length items).
Proof.
  destruct v as [| | | s | l | d]; try discriminate;
    intro H; injection H as <-; simpl.
  - f_equal. induction s as [| c r IH]; simpl; congruence.
  - reflexivity.
  - now rewrite length_map.
Qed.

Lemma with_items_same (v : json) (items : list json) :
  py_iter v = inr items -> with_items v items = v.
Proof.
  destruct v; try discriminate; intro H; [reflexivity | | reflexivity].
  now injection H as ->.
Qed.

(** ** Loops over the records *)

Lemma without_id_absent (tenant_id : string) (items : list json) :
  forallb is_record items = true ->
  (forall d, In (JObj d) items -> id_is tenant_id d = false) ->
  without_id tenant_id items = inr items.
Proof.
  induction items as [| t rest IH]; intros Hrec Hno; [reflexivity |].
  simpl in Hrec. apply andb_true_iff in Hrec as [Ht Hrec].
  destruct t as [| | | | | d]; try discriminate.
  simpl. rewrite IH; [| exact Hrec | intros; apply Hno; now right].
  simpl. rewrite (Hno d); [reflexivity | now left].
Qed.

Lemma find_credentials_inactive (tenant_id : string) (items : list json) :
  forallb is_record items = true ->
  (forall d, In (JObj d) items -> id_is tenant_id d = true ->
             py_truthy (Dict.get_default "isActive" (JBool false) d) = false) ->
  find_credentials tenant_id items = inr (JStr "", JStr "", JStr "").
Proof.
  induction items as [| t rest IH]; intros Hrec Hno; [reflexivity |].
  simpl in Hrec. apply andb_true_iff in Hrec as [Ht Hrec].
  destruct t as [| | | | | d]; try discriminate.
  simpl.
  destruct (id_is tenant_id d) eqn:Hid.
  - rewrite (Hno d); [| now left | exact Hid]. simpl.
    apply IH; [exact Hrec | intros; apply Hno; auto; now right].
  - simpl. apply IH; [exact Hrec | intros; apply Hno; auto; now right].
Qed.

Lemma find_tenant_split (tenant_id : string) (items pre post : list json) (t : dict) :
  find_tenant tenant_id items = inr (Some (pre, t, post)) ->
  items = (pre ++ JObj t :: post)%list /\ id_is tenant_id t = true.
Proof.
  revert pre. induction items as [| x rest IH]; intros pre H; [discriminate |].
  destruct x as [| | | | | d]; try discriminate.
  simpl in H. destruct (id_is tenant_id d) eqn:Hid.
  - injection H as <- <- <-. split; [reflexivity | exact Hid].
  - destruct (find_tenant tenant_id rest) as [e | [[[pre' t'] post'] |]];
      try discriminate.
    simpl in H. injection H as <- <- <-.
    destruct (IH pre' eq_refl) as [-> Ht]. split; [reflexivity | exact Ht].
Qed.


Lemma run_read_tenants (w : world) :
  run _read_tenants w = read_tenants_locked w.
Proof. apply run_atomic. Qed.

Lemma read_clean (w : world) (t : text) (v : json) (items : list json) :
  tenants_file w = Some t ->
  json_loads t = Some v ->
  py_iter v = inr items ->
  forallb is_record items = true ->
  existsb legacy_secret items = false ->
  read_tenants_locked w = (v, w).
Proof.
  intros Hfile Hload Hiter Hrec Hleg. unfold read_tenants_locked.
  rewrite Hfile, Hload, Hiter, (migrate_no_legacy _ _ Hrec Hleg).
  now rewrite (with_items_same _ _ Hiter).
Qed.

Lemma token_requested_after_read (w : world) :
  token_requested (snd (read_tenants_locked w)) = token_requested w.
Proof.
  destruct (read_result w) as (r & w1 & items & Hr & _ & _ & _ & _ & Ht).
  rewrite Hr. unfold token_requested. simpl. rewrite Ht, existsb_app.
  destruct (holds_legacy_secret w); simpl; now rewrite ?orb_false_r.
Qed.

(** C8, as the code has it.  Deleting an identifier that matches no
    record answers 404 and does nothing beyond the read it starts with:
    the file is untouched unless the store held a legacy plaintext secret,
    which the read migrates. *)
Theorem delete_missing_tenant_only_reads (w : world) (tenant_id : string) :
  (forall d, In (JObj d) (items_of (fst (run _read_tenants w))) ->
             id_is tenant_id d = false) ->
  exists w',
    run (delete_tenant tenant_id) w = (not_found, w')
    /\ status_of not_found = 404%Z
    /\ w' = snd (run _read_tenants w)
    /\ (holds_legacy_secret w = false ->
        tenants_file w' = tenants_file w /\ trace w' = trace w).
Proof.
  rewrite run_read_tenants. intro Hno.
  destruct (read_result w) as (r & w1 & items & Hr & Hiter & Hrec & _ & Hf & Ht).
  rewrite Hr in Hno. unfold items_of in Hno. simpl in Hno. rewrite Hiter in Hno.
  exists w1. split; [| split; [reflexivity | split]].
  - unfold delete_tenant. rewrite run_bind, run_read_tenants, Hr.
    rewrite Hiter. cbn [bindE].
    rewrite (without_id_absent _ _ Hrec Hno), (py_len_iter _ _ Hiter).
    cbn [bindE]. now rewrite Nat.eqb_refl.
  - now rewrite Hr.
  - intro Hh. rewrite Hh in Hf, Ht. now rewrite app_nil_r in Ht.
Qed.

(** C6.  When no record has the identifier, and when every record with
    the identifier is inactive, the resolver returns the all-empty
    triplet; and whenever the resolved triplet has an empty component the
    pipeline answers 404 with the not-found payload and stops right after
    the resolution, without a token request. *)
Theorem unresolved_tenant_not_found (w : world) (tenant_id : string) :
  ((forall d, In (JObj d) (items_of (fst (run _read_tenants w))) ->
              id_is tenant_id d = false) ->
   fst (run (_get_tenant_credentials tenant_id) w)
   = inr (JStr "", JStr "", JStr ""))
  /\ ((forall d, In (JObj d) (items_of (fst (run _read_tenants w))) ->
                 id_is tenant_id d = true ->
                 py_truthy (Dict.get_default "isActive" (JBool false) d) = false) ->
      fst (run (_get_tenant_credentials tenant_id) w)
      = inr (JStr "", JStr "", JStr ""))
  /\ (forall a b c w1,
        run (_get_tenant_credentials tenant_id) w = (inr (a, b, c), w1) ->
        a = JStr "" \/ b = JStr "" \/ c = JStr "" ->
        run (_collect_tenant_data tenant_id) w = (missing_credentials, w1)
        /\ status_of missing_credentials = 404%Z
        /\ token_requested w1 = token_requested w).
Proof.
  assert (Hinactive :
            (forall d, In (JObj d) (items_of (fst (run _read_tenants w))) ->
                       id_is tenant_id d = true ->
                       py_truthy (Dict.get_default "isActive" (JBool false) d) = false) ->
            fst (run (_get_tenant_credentials tenant_id) w)
            = inr (JStr "", JStr "", JStr "")).
  { rewrite run_read_tenants. intro Hno.
    destruct (read_result w) as (r & w1 & items & Hr & Hiter & Hrec & _).
    rewrite Hr in Hno. unfold items_of in Hno. simpl in Hno. rewrite Hiter in Hno.
    unfold _get_tenant_credentials.
    rewrite run_bind, run_read_tenants, Hr. simpl. rewrite Hiter. cbn [bindE].
    now apply find_credentials_inactive. }
  split; [| split; [exact Hinactive |]].
  - intro Hno. apply Hinactive. intros d Hd Hid.
    rewrite (Hno d Hd) in Hid. discriminate.
  - intros a b c w1 Hcreds Hempty.
    split; [| split; [reflexivity |]].
    + unfold _collect_tenant_data. rewrite run_bind, Hcreds.
      assert (Hall : py_truthy a && py_truthy b && py_truthy c = false).
      { destruct Hempty as [-> | [-> | ->]]; simpl;
          now rewrite ?andb_false_r. }
      now rewrite Hall.
    + unfold _get_tenant_credentials in Hcreds.
      rewrite run_bind, run_read_tenants in Hcreds.
      pose proof (token_requested_after_read w) as Hreq.
      destruct (read_tenants_locked w) as [r w2]. simpl in Hcreds, Hreq.
      now injection Hcreds as _ <-.
Qed.

(** ** Trimming *)

Lemma rstrip_idempotent (s : string) : rstrip (rstrip s) = rstrip s.
Proof.
  induction s as [| c r IH]; [reflexivity |]. simpl.
  destruct (rstrip r) as [| a r'] eqn:Hr.
  - destruct (isspace c) eqn:Hc; [reflexivity |]. simpl. now rewrite Hc.
  - cbn [rstrip] in *. rewrite IH. reflexivity.
Qed.

Lemma lstrip_head (s : string) :
  lstrip s = "" \/ exists c r, lstrip s = String c r /\ isspace c = false.
Proof.
  induction s as [| c r IH]; [now left |]. simpl.
  destruct (isspace c) eqn:Hc; [exact IH |]. right. now exists c, r.
Qed.

Lemma py_strip_idempotent (s : string) : py_strip (py_strip s) = py_strip s.
Proof.
  unfold py_strip.
  assert (H : lstrip (rstrip (lstrip s)) = rstrip (lstrip s)).
  { destruct (lstrip_head s) as [-> | (c & r & -> & Hc)]; [reflexivity |].
    simpl. destruct (rstrip r); rewrite ?Hc; simpl; now rewrite ?Hc. }
  rewrite H. apply rstrip_idempotent.
Qed.

(** Every record that [create_tenant] builds is normalised. *)
Lemma new_item_normalised (payload : json) (id token : string) (item : dict) :
  new_item payload id token = inr item -> normalised item.
Proof.
  unfold new_item.
  destruct (stripped_item "name" payload) as [e | n] eqn:Hn; [discriminate |].
  destruct (stripped_item "tenantId" payload) as [e | d] eqn:Hd; [discriminate |].
  destruct (stripped_item "clientId" payload) as [e | c] eqn:Hc; [discriminate |].
  cbn [bindE].
  destruct (py_get "isActive" (JBool true) payload) as [e | a]; [discriminate |].
  destruct (py_get "lastSync" (JStr "") payload) as [e | l]; [discriminate |].
  cbn [bindE].
  destruct (int_field "userCount" (JInt 0) payload) as [e | u]; [discriminate |].
  destruct (int_field "licenseCount" (JInt 0) payload) as [e | k]; [discriminate |].
  cbn [bindE]. intro H. injection H as <-.
  assert (Hs : forall k x, stripped_item k payload = inr x -> py_strip x = x).
  { intros k0 x. unfold stripped_item.
    destruct (py_item k0 payload) as [e | v]; [discriminate |].
    cbn [bindE]. intro H. injection H as <-. apply py_strip_idempotent. }
  constructor; eexists; try split; try reflexivity; eauto.
Qed.

(** ** Update *)

Lemma int_of_stored_counter (z : Z) : py_int (py_or (JInt z) (JInt 0)) = inr z.
Proof.
  unfold py_or. simpl. destruct (Z.eqb_spec z 0) as [-> | _]; reflexivity.
Qed.

Lemma update_empty_fields (t : dict) :
  normalised t ->
  exists u, updated_fields (JObj []) t = inr u /\ Dict.update u t = t.
Proof.
  intros [(n & Hn & Sn) (d & Hd & Sd) (c & Hc & Sc) (b & Hb) (l & Hl)
          (uc & Hu) (lc & Hlc)].
  unfold updated_fields, int_field, py_get, Dict.get_default.
  cbn [Dict.get bindE].
  rewrite Hn, Hd, Hc, Hb, Hl, Hu, Hlc. cbn [bindE].
  rewrite !int_of_stored_counter. cbn [bindE].
  eexists. split; [reflexivity |].
  unfold str_, py_str. rewrite Sn, Sd, Sc.
  unfold Dict.update. cbn [fold_left fst snd].
  destruct b; cbn [py_truthy];
    now rewrite (set_unchanged _ _ _ Hn), (set_unchanged _ _ _ Hd),
      (set_unchanged _ _ _ Hc), (set_unchanged _ _ _ Hb),
      (set_unchanged _ _ _ Hl), (set_unchanged _ _ _ Hu),
      (set_unchanged _ _ _ Hlc).
Qed.

(** C7, as the code has it.  An update with the empty payload of a
    normalised record answers 200 with the redacted record and writes back
    exactly the list it read: every field of every record, the encrypted
    secret included, is as the read returned it, and a later read returns
    the same list. *)
Theorem update_empty_payload_keeps_record
  (w w1 : world) (tenant_id : string) (tenants : json)
  (pre post : list json) (t : dict) :
  run _read_tenants w = (tenants, w1) ->
  find_tenant tenant_id (items_of tenants) = inr (Some (pre, t, post)) ->
  normalised t ->
  exists w',
    run (update_tenant tenant_id (JObj [])) w
    = (Reply (redact t (py_truthy (Dict.get_default "clientSecret" JNull t))) 200, w')
    /\ tenants_file w' = Some (json_dumps tenants)
    /\ run _read_tenants w' = (tenants, w').
Proof.
  rewrite run_read_tenants. intros Hread Hfind Hnorm.
  destruct (read_result w) as (r & w2 & items & Hr & Hiter & Hrec & Hleg & _).
  rewrite Hread in Hr. injection Hr as <- <-.
  unfold items_of in Hfind. rewrite Hiter in Hfind.
  destruct (find_tenant_split _ _ _ _ _ Hfind) as [Hitems _].
  destruct (update_empty_fields t Hnorm) as (u & Hu & Hsame).
  exists (write_text (json_dumps tenants) w1).
  split; [| split; [reflexivity |]].
  - unfold update_tenant. rewrite run_bind, run_read_tenants, Hread.
    rewrite Hiter. cbn [bindE]. rewrite Hfind.
    change (payload_of (JObj [])) with (JObj []).
    rewrite Hu. cbn [bindE supplied_secret field_supplied Dict.get].
    rewrite Hsame, run_bind. cbn [run].
    assert (Hne : py_truthy (JObj t) = true).
    { destruct Hnorm as [(n & Hn & _) _ _ _ _ _ _].
      destruct t; [discriminate | reflexivity]. }
    rewrite Hne. cbn [negb].
    rewrite <- Hitems, (with_items_same _ _ Hiter).
    rewrite run_bind. unfold _write_tenants. rewrite run_atomic.
    reflexivity.
  - rewrite run_read_tenants.
    apply (read_clean _ (json_dumps tenants) tenants items);
      auto using loads_dumps.
Qed.

(** ** Create *)

Lemma payload_of_dict (d : dict) : payload_of (JObj d) = JObj d.
Proof. destruct d; reflexivity. Qed.

Lemma all_supplied_inv (d : dict) :
  all_supplied (JObj d) required = inr true ->
  exists name tenant client secret,
    Dict.get "name" d = Some name
    /\ Dict.get "tenantId" d = Some tenant
    /\ Dict.get "clientId" d = Some client
    /\ Dict.get "clientSecret" d = Some secret.
Proof.
  unfold required, all_supplied, field_supplied.
  destruct (Dict.get "name" d) as [v1 |]; [| discriminate].
  cbn [bindE]. destruct (negb _); [| discriminate].
  destruct (Dict.get "tenantId" d) as [v2 |]; [| discriminate].
  cbn [bindE]. destruct (negb _); [| discriminate].
  destruct (Dict.get "clientId" d) as [v3 |]; [| discriminate].
  cbn [bindE]. destruct (negb _); [| discriminate].
  destruct (Dict.get "clientSecret" d) as [v4 |]; [| discriminate].
  intros _. now exists v1, v2, v3, v4.
Qed.

(** C2.  Decrypting an encrypted string gives the string back, and the
    encrypted string is a Fernet token in the envelope format; and a
    create request with the four required fields, on a store that reads as
    a list, answers 201 and stores, first in the list, a record whose
    secret is the Fernet token of the trimmed secret of the request and
    decrypts to it. *)
Theorem created_secret_roundtrip :
  (forall (plain : string) (w : world),
      _decrypt_secret (JStr (fst (_encrypt_secret plain w))) = JStr plain
      /\ fst (_encrypt_secret plain w) = fernet_encrypt (tick w) plain
      /\ _looks_encrypted (JStr (fst (_encrypt_secret plain w))) = true)
  /\ (forall (w w1 : world) (d : dict) (l : list json) (users licenses : Z),
        all_supplied (JObj d) required = inr true ->
        int_field "userCount" (JInt 0) (JObj d) = inr users ->
        int_field "licenseCount" (JInt 0) (JObj d) = inr licenses ->
        run _read_tenants w = (JList l, w1) ->
        exists item w' secret token,
          run (create_tenant (JObj d)) w = (Reply (redact item true) 201, w')
          /\ tenants_file w' = Some (json_dumps (JList (JObj item :: l)))
          /\ Dict.get "clientSecret" d = Some secret
          /\ Dict.get "clientSecret" item = Some (JStr token)
          /\ _decrypt_secret (JStr token) = JStr (py_strip (str_ secret))
          /\ (exists n, token = fernet_encrypt n (py_strip (str_ secret)))).
Proof.
  split.
  - intros plain w. split; [apply encrypt_roundtrip |].
    split; [reflexivity | apply token_envelope].
  - intros w w1 d l users licenses Hall Hu Hl Hread.
    destruct (all_supplied_inv d Hall) as (v1 & v2 & v3 & v4 & H1 & H2 & H3 & H4).
    eexists _, _, v4, (fernet_encrypt (S (tick w1)) (py_strip (str_ v4))).
    split; [| split; [| split; [exact H4 | split; [| split]]]].
    + unfold create_tenant. rewrite payload_of_dict, Hall.
      rewrite run_bind, Hread, run_bind, run_atomic.
      unfold stripped_item, py_item. rewrite H1, H2, H3, H4. cbn [bindE].
      rewrite run_bind, run_atomic. unfold _encrypt_secret.
      unfold new_item, stripped_item, py_item.
      rewrite H1, H2, H3, Hu, Hl. cbn [bindE py_get py_insert0].
      rewrite run_bind. unfold _write_tenants. rewrite run_atomic.
      cbn [run tick next_tick]. reflexivity.
    + reflexivity.
    + reflexivity.
    + apply encrypt_roundtrip.
    + now exists (S (tick w1)).
Qed.

(** ** Metrics *)

Lemma count_active_users (users : list json) :
  forallb user_object users = true ->
  count_active users = inr (List.length (filter enabled_or_absent users)).
Proof.
  induction users as [| u rest IH]; intro H; [reflexivity |].
  simpl in H. apply andb_true_iff in H as [Hu H].
  destruct u as [| | | | | d]; try discriminate.
  cbn [count_active filter]. rewrite (IH H). cbn [bindE].
  unfold Dict.get_default, enabled_or_absent. simpl in Hu.
  destruct (Dict.get "accountEnabled" d) as [[| [] | | | |] |];
    try discriminate; reflexivity.
Qed.

Lemma count_active_records (users : list json) :
  forallb is_record users = true -> exists n, count_active users = inr n.
Proof.
  induction users as [| u rest IH]; intro H; [now exists 0%nat |].
  simpl in H. apply andb_true_iff in H as [Hu H].
  destruct u as [| | | | | d]; try discriminate.
  destruct (IH H) as [n Hn]. simpl. rewrite Hn. simpl. eexists; reflexivity.
Qed.

Lemma user_object_record (users : list json) :
  forallb user_object users = true -> forallb is_record users = true.
Proof.
  induction users as [| u rest IH]; [reflexivity |]. simpl.
  rewrite !andb_true_iff. intros [Hu H]. split; [| now apply IH].
  destruct u; try discriminate; reflexivity.
Qed.

Lemma sum_enabled_units (ls : list json) (acc : Z) :
  forallb license_object ls = true ->
  py_sum enabled_units ls acc = inr (acc + sumZ (map prepaid_enabled ls))%Z.
Proof.
  revert acc. induction ls as [| lic rest IH]; intros acc H; simpl.
  - f_equal. lia.
  - simpl in H. apply andb_true_iff in H as [Hl H].
    destruct lic as [| | | | | d]; try discriminate.
    simpl in Hl. apply andb_true_iff in Hl as [Hp _].
    unfold enabled_units, py_get, Dict.get_default. cbn [bindE].
    destruct (Dict.get "prepaidUnits" d) as [[| | | | | p] |] eqn:Hg;
      try discriminate; cbn [bindE py_add Dict.get].
    + destruct (Dict.get "enabled" p) as [[| | z | | |] |] eqn:Hg';
        try discriminate; cbn [py_add bindE]; rewrite (IH _ H); f_equal;
        assert (Hv := eq_refl (prepaid_enabled (JObj d)));
        unfold prepaid_enabled at 2 in Hv; rewrite Hg, Hg' in Hv;
        cbv beta iota in Hv; rewrite Hv; lia.
    + rewrite (IH _ H). f_equal.
      assert (Hv := eq_refl (prepaid_enabled (JObj d))).
      unfold prepaid_enabled at 2 in Hv. rewrite Hg in Hv.
      cbv beta iota in Hv. rewrite Hv. lia.
Qed.

Lemma sum_consumed_units (ls : list json) (acc : Z) :
  forallb license_object ls = true ->
  py_sum consumed_units ls acc = inr (acc + sumZ (map consumed ls))%Z.
Proof.
  revert acc. induction ls as [| lic rest IH]; intros acc H; simpl.
  - f_equal. lia.
  - simpl in H. apply andb_true_iff in H as [Hl H].
    destruct lic as [| | | | | d]; try discriminate.
    simpl in Hl. apply andb_true_iff in Hl as [_ Hc].
    unfold consumed_units, py_get, Dict.get_default.
    destruct (Dict.get "consumedUnits" d) as [[| | z | | |] |] eqn:Hg;
      try discriminate; cbn [py_add bindE]; rewrite (IH _ H); f_equal;
      assert (Hv := eq_refl (consumed (JObj d)));
      unfold consumed at 2 in Hv; rewrite Hg in Hv;
      cbv beta iota in Hv; rewrite Hv; lia.
Qed.

Lemma calculate_metrics_records (users ls : list json) :
  forallb is_record users = true ->
  forallb license_object ls = true ->
  exists active,
    count_active users = inr active
    /\ calculate_metrics (JList users) (JList ls)
       = inr (mkMetrics (Z.of_nat (List.length users)) (Z.of_nat active)
                (Z.of_nat (List.length users) - Z.of_nat active)
                (sumZ (map prepaid_enabled ls)) (sumZ (map consumed ls))
                (sumZ (map prepaid_enabled ls) - sumZ (map consumed ls))).
Proof.
  intros Hu Hl. destruct (count_active_records users Hu) as [n Hn].
  exists n. split; [exact Hn |].
  unfold calculate_metrics. cbn [py_len py_iter bindE]. rewrite Hn.
  cbn [bindE].
  now rewrite (sum_enabled_units ls 0 Hl), (sum_consumed_units ls 0 Hl).
Qed.

(** C4.  For a list of user objects, the metrics have [totalUsers] the
    length of the list, [activeUsers] the number of users whose
    [accountEnabled] is true or absent, and [disabledUsers] their
    difference; and the metrics are computed whenever the licenses are SKU
    objects. *)
Theorem user_metrics (users : list json) :
  forallb user_object users = true ->
  (forall (licenses : json) (m : metrics),
      calculate_metrics (JList users) licenses = inr m ->
      totalUsers m = Z.of_nat (List.length users)
      /\ activeUsers m = Z.of_nat (List.length (filter enabled_or_absent users))
      /\ disabledUsers m = (totalUsers m - activeUsers m)%Z)
  /\ (forall ls : list json,
        forallb license_object ls = true ->
        exists m, calculate_metrics (JList users) (JList ls) = inr m).
Proof.
  intro Hu. split.
  - intros licenses m. unfold calculate_metrics. cbn [py_len py_iter bindE].
    rewrite (count_active_users users Hu). cbn [bindE].
    destruct (py_iter licenses) as [e | ls]; [discriminate |]. cbn [bindE].
    destruct (py_sum enabled_units ls 0) as [e | total]; [discriminate |].
    cbn [bindE].
    destruct (py_sum consumed_units ls 0) as [e | used]; [discriminate |].
    cbn [bindE]. intro H. injection H as <-. simpl. auto.
  - intros ls Hl.
    destruct (calculate_metrics_records users ls (user_object_record _ Hu) Hl)
      as (n & _ & H).
    eexists. exact H.
Qed.

(** C5.  For a list of SKU objects, [totalLicenses] is the sum of
    [prepaidUnits.enabled] and [usedLicenses] the sum of [consumedUnits],
    a missing field counting 0, and [availableLicenses] is their difference
    in the integers; the metrics are computed whenever the users are
    objects; and the difference can be negative. *)
Theorem license_metrics (ls : list json) :
  forallb license_object ls = true ->
  (forall (users : json) (m : metrics),
      calculate_metrics users (JList ls) = inr m ->
      totalLicenses m = sumZ (map prepaid_enabled ls)
      /\ usedLicenses m = sumZ (map consumed ls)
      /\ availableLicenses m = (totalLicenses m - usedLicenses m)%Z)
  /\ (forall us : list json,
        forallb is_record us = true ->
        exists m, calculate_metrics (JList us) (JList ls) = inr m)
  /\ (exists m,
        calculate_metrics (JList [])
          (JList [JObj [("prepaidUnits", JObj [("enabled", JInt 5)]);
                        ("consumedUnits", JInt 7)]]) = inr m
        /\ availableLicenses m = (-2)%Z).
Proof.
  intro Hl. split; [| split].
  - intros users m. unfold calculate_metrics.
    destruct (py_len users) as [e | n]; [discriminate |]. cbn [bindE].
    destruct (py_iter users) as [e | us]; [discriminate |]. cbn [bindE].
    destruct (count_active us) as [e | a]; [discriminate |].
    cbn [bindE py_iter].
    rewrite (sum_enabled_units ls 0 Hl), (sum_consumed_units ls 0 Hl).
    cbn [bindE]. intro H. injection H as <-. simpl. auto.
  - intros us Hu.
    destruct (calculate_metrics_records us ls Hu Hl) as (n & _ & H).
    eexists. exact H.
  - eexists. split; reflexivity.
Qed.

(** ** Aggregation *)







End Properties.

(** ** The test double satisfies the assumptions *)

Lemma double_drop_nonce (n : nat) (plain : string) :
  Double.drop_nonce (Double.nonce n ++ plain) = Some plain.
Proof. induction n as [| n IH]; [reflexivity | exact IH]. Qed.

Lemma double_ok (graph : endpoint -> json -> fetch_outcome) :
  ExternalsOK (Double.externals graph).
Proof.
  constructor.
  - reflexivity.
  - intros n p. apply double_drop_nonce.
  - reflexivity.
Qed.

Lemma double_E_ok : ExternalsOK Double.E.
Proof. apply double_ok. Qed.

(** ** The properties on concrete stores *)

(** Witness of C10: a legacy plaintext secret passes through. *)
Lemma decrypt_secret_passthrough_witness :
  _decrypt_secret (E := Double.E) (JStr "plain-secret") = JStr "plain-secret".
Proof.
  apply (proj1 (decrypt_secret_passthrough (E := Double.E))).
  right; left; reflexivity.
Defined.

(** Witness of C1: the store with one legacy and one encrypted secret. *)
Lemma read_tenants_migrates_once_witness :
  exists items' w1,
    run _read_tenants Double.legacy_store = (JList items', w1)
    /\ writes w1 = 1%nat
    /\ run _read_tenants w1 = (JList items', w1).
Proof.
  destruct (read_tenants_migrates_once (OK := double_E_ok)
              Double.legacy_store _ _ eq_refl eq_refl eq_refl)
    as (items' & w1 & H1 & _ & H3 & H4).
  exists items', w1. repeat split; try assumption.
  simpl in H3. apply H3.
Defined.

(** Witness of C2: a create request whose secret has blanks around it. *)
Lemma created_secret_roundtrip_witness :
  exists item w' token,
    run (create_tenant (Double.request "A" " secret-a ")) Double.created_store
    = (Reply (redact item true) 201, w')
    /\ Dict.get "clientSecret" item = Some (JStr token)
    /\ _decrypt_secret (E := Double.E) (JStr token) = JStr "secret-a".
Proof.
  destruct (proj2 (created_secret_roundtrip (OK := double_E_ok))
              Double.created_store Double.created_store
              (Double.request_fields "A" " secret-a ")
              [JObj Double.created_record] 0%Z 0%Z
              eq_refl eq_refl eq_refl eq_refl)
    as (item & w' & secret & token & H1 & _ & H3 & H4 & H5 & _).
  exists item, w', token. injection H3 as <-. auto.
Defined.


(** Witness of C4: one enabled user, one disabled, one without the
    field. *)
Lemma user_metrics_witness :
  exists m,
    calculate_metrics
      (JList [JObj [("accountEnabled", JBool true)];
              JObj [("accountEnabled", JBool false)];
              JObj []])
      (JList []) = inr m
    /\ totalUsers m = 3%Z /\ activeUsers m = 2%Z /\ disabledUsers m = 1%Z.
Proof.
  destruct (user_metrics
              [JObj [("accountEnabled", JBool true)];
               JObj [("accountEnabled", JBool false)];
               JObj []] eq_refl) as [Hm Hex].
  destruct (Hex [] eq_refl) as [m H].
  exists m. split; [exact H |].
  destruct (Hm _ _ H) as (Ht & Ha & Hd).
  rewrite Hd, Ht, Ha. repeat split.
Defined.

(** Witness of C5: two SKUs, 15 units enabled and 9 consumed. *)
Lemma license_metrics_witness :
  exists m,
    calculate_metrics (JList [])
      (JList [JObj [("prepaidUnits", JObj [("enabled", JInt 10)]);
                    ("consumedUnits", JInt 4)];
              JObj [("prepaidUnits", JObj [("enabled", JInt 5)]);
                    ("consumedUnits", JInt 5)]]) = inr m
    /\ totalLicenses m = 15%Z /\ usedLicenses m = 9%Z
    /\ availableLicenses m = 6%Z.
Proof.
  destruct (license_metrics
              [JObj [("prepaidUnits", JObj [("enabled", JInt 10)]);
                     ("consumedUnits", JInt 4)];
               JObj [("prepaidUnits", JObj [("enabled", JInt 5)]);
                     ("consumedUnits", JInt 5)]] eq_refl) as (Hm & Hex & _).
  destruct (Hex [] eq_refl) as [m H].
  exists m. split; [exact H |].
  destruct (Hm _ _ H) as (Ht & Hu & Ha).
  rewrite Ha, Ht, Hu. repeat split.
Defined.

(** Witness of C6: an unknown identifier and the inactive tenant ["b"]. *)
Lemma unresolved_tenant_not_found_witness :
  fst (run (_get_tenant_credentials "missing") Double.legacy_store)
  = inr (JStr "", JStr "", JStr "")
  /\ fst (run (_collect_tenant_data "b") Double.legacy_store) = missing_credentials.
Proof.
  split.
  - apply (proj1 (unresolved_tenant_not_found (OK := double_E_ok)
                    Double.legacy_store "missing")).
    intros d [H | [H | []]]; injection H as <-; reflexivity.
  - destruct (unresolved_tenant_not_found (OK := double_E_ok)
                Double.legacy_store "b") as (_ & Hinactive & Hstop).
    assert (Hb : fst (run (_get_tenant_credentials "b") Double.legacy_store)
                 = inr (JStr "", JStr "", JStr "")).
    { apply Hinactive. intros d [H | [H | []]] Hid; injection H as <-;
        [discriminate Hid | reflexivity]. }
    destruct (run (_get_tenant_credentials "b") Double.legacy_store)
      as [creds w1] eqn:Hrun.
    simpl in Hb. subst creds.
    now rewrite (proj1 (Hstop _ _ _ w1 eq_refl (or_introl eq_refl))).
Defined.

(** Witness of C7: a record as [create_tenant] wrote it. *)
Lemma update_empty_payload_keeps_record_witness :
  exists w',
    run (update_tenant "t1" (JObj [])) Double.created_store
    = (Reply (redact Double.created_record true) 200, w')
    /\ Double.stored w' = Double.stored Double.created_store.
Proof.
  assert (Hnorm : normalised Double.created_record).
  { constructor; eexists; try split; reflexivity. }
  destruct (update_empty_payload_keeps_record (OK := double_E_ok)
              Double.created_store Double.created_store "t1"
              (JList [JObj Double.created_record]) [] [] Double.created_record
              eq_refl eq_refl Hnorm) as (w' & H1 & H2 & _).
  exists w'. split; [exact H1 |].
  unfold Double.stored. now rewrite H2.
Defined.

(** Counterexample to C7 as stated: the stored name has blanks around it,
    and the update with the empty payload writes it back trimmed. *)
Lemma update_empty_payload_trims_name :
  let out := run (update_tenant "t1" (JObj [])) Double.untrimmed_store in
  status_of (fst out) = 200%Z
  /\ Double.field "name" Double.untrimmed_store = [Some (JStr " Contoso ")]
  /\ Double.field "name" (snd out) = [Some (JStr "Contoso")]
  /\ Double.stored (snd out) <> Double.stored Double.untrimmed_store.
Proof.
  repeat split. intro H. vm_compute in H. discriminate H.
Qed.

(** Witness of C8: a store without legacy secrets is left as it is. *)
Lemma delete_missing_tenant_only_reads_witness :
  exists w',
    run (delete_tenant "missing") Double.created_store = (not_found, w')
    /\ tenants_file w' = tenants_file Double.created_store
    /\ trace w' = [].
Proof.
  destruct (delete_missing_tenant_only_reads (OK := double_E_ok)
              Double.created_store "missing") as (w' & H1 & _ & _ & H4).
  - intros d [H | []]. injection H as <-. reflexivity.
  - exists w'. split; [exact H1 |]. apply H4. reflexivity.
Defined.

(** Counterexample to C8 as stated: no record has the identifier, the
    answer is 404, and the file was rewritten, because the read migrated
    the legacy secret of tenant ["a"]. *)
Lemma delete_missing_tenant_rewrites_legacy_store :
  let out := run (delete_tenant "missing") Double.legacy_store in
  Double.field "id" Double.legacy_store = [Some (JStr "a"); Some (JStr "b")]
  /\ fst out = not_found
  /\ writes (snd out) = 1%nat
  /\ Double.field "clientSecret" Double.legacy_store
     = [Some (JStr "plain-secret"); Some (JStr (Double.encrypt 7 "s3cret"))]
  /\ Double.field "clientSecret" (snd out)
     = [Some (JStr (Double.encrypt 0 "plain-secret"));
        Some (JStr (Double.encrypt 7 "s3cret"))]
  /\ tenants_file (snd out) <> tenants_file Double.legacy_store.
Proof.
  repeat split. intro H. vm_compute in H. discriminate H.
Qed.

(** C9.  The lock is released between the read and the write of a create
    request.  When two threads both read the empty store before either
    writes, both answer 201 and only the record of the second writer is
    stored; served one after the other, both records are stored. *)
Theorem concurrent_creates_lose_a_record :
  let racing := run_schedule Double.racing_schedule
                  (Double.store (JList []), Double.two_creates) in
  let serial := run_schedule Double.serial_schedule
                  (Double.store (JList []), Double.two_creates) in
  Double.statuses (snd racing) = [Some 201%Z; Some 201%Z]
  /\ Double.field "name" (fst racing) = [Some (JStr "B")]
  /\ Double.statuses (snd serial) = [Some 201%Z; Some 201%Z]
  /\ Double.field "name" (fst serial) = [Some (JStr "B"); Some (JStr "A")].
Proof.
  repeat split.
Qed.


(** * Further properties of the backend *)

Section Coverage.

Context {E : Externals} {OK : ExternalsOK E}.

(** ** Key sourcing *)

(** X1.  [_load_fernet] never modifies a key file that exists, and, when
    a generated key has no blanks around it, loading a second time gives
    the same key and the same key file whatever would be generated then. *)
Theorem load_fernet_stable
  (env_key generated generated' : string) (key_file : option string) :
  py_strip generated = generated ->
  _load_fernet env_key (snd (_load_fernet env_key key_file generated)) generated'
  = _load_fernet env_key key_file generated
  /\ (forall content, key_file = Some content ->
                      snd (_load_fernet env_key key_file generated) = Some content).
Proof.
  intro Hg. unfold _load_fernet.
  destruct (negb (py_truthy (JStr (py_strip env_key)))) eqn:Henv.
  - destruct key_file as [content |]; cbn [snd fst]; rewrite ?Henv, ?Hg.
    + split; [reflexivity | now intros c H].
    + split; [reflexivity | discriminate].
  - cbn [snd fst]. split; [reflexivity | now intros c H].
Qed.

(** ** Reading and writing the store *)

Lemma read_unreadable (w : world) :
  unreadable w ->
  exists w1,
    read_tenants_locked w = (JList [], w1)
    /\ tenants_file w1 = tenants_file w
    /\ trace w1 = trace w.
Proof.
  unfold unreadable, read_tenants_locked.
  destruct (tenants_file w) as [t |] eqn:Hfile.
  - destruct (json_loads t) as [[| | | | items |] |]; try contradiction.
    + intro Hrec. cbn [py_iter].
      destruct (migrate_fails items w Hrec) as (e & w1 & -> & Hf & Ht).
      exists w1. rewrite Hf. now repeat split.
    + intros _. exists w. now rewrite Hfile.
  - intros _. exists w. now rewrite Hfile.
Qed.

(** X2.  A store that is missing, does not parse, or lists something that
    is not an object reads as the empty list, and the read leaves the file
    as it is, also when a record before the bad item holds a legacy
    secret. *)
Theorem unreadable_store_reads_empty (w : world) :
  unreadable w ->
  fst (run _read_tenants w) = JList []
  /\ tenants_file (snd (run _read_tenants w)) = tenants_file w
  /\ writes (snd (run _read_tenants w)) = writes w.
Proof.
  intro H. rewrite run_read_tenants.
  destruct (read_unreadable w H) as (w1 & -> & Hf & Ht).
  simpl. unfold writes. now rewrite Ht.
Qed.

(** X3.  Writing a value whose items are records without legacy secrets
    and reading the store back returns that value; the read changes
    nothing. *)
Theorem write_then_read (w : world) (v : json) (items : list json) :
  py_iter v = inr items ->
  forallb is_record items = true ->
  existsb legacy_secret items = false ->
  run (bind (_write_tenants v) (fun _ => _read_tenants)) w
  = (v, write_text (json_dumps v) w).
Proof.
  intros Hiter Hrec Hleg.
  rewrite run_bind. unfold _write_tenants. rewrite run_atomic.
  unfold write_tenants_locked. rewrite run_read_tenants.
  apply (read_clean _ (json_dumps v) v items); auto using loads_dumps.
Qed.

(** ** Metrics *)

Lemma count_active_le (users : list json) (n : nat) :
  count_active users = inr n -> (n <= List.length users)%nat.
Proof.
  revert n. induction users as [| u rest IH]; intros n H.
  - injection H as <-. apply Nat.le_refl.
  - destruct u as [| | | | | d]; try discriminate.
    simpl in H. destruct (count_active rest) as [e | k]; [discriminate |].
    simpl in H. specialize (IH k eq_refl).
    destruct (py_truthy _); injection H as <-; simpl; lia.
Qed.

(** X4.  Whenever the metrics are computed, whatever the fetched values
    are, the active users are between 0 and the total, the disabled users
    are not negative, and active and disabled users add up to the total. *)
Theorem user_counts_bounded (users licenses : json) (m : metrics) :
  calculate_metrics users licenses = inr m ->
  (0 <= activeUsers m <= totalUsers m
   /\ 0 <= disabledUsers m
   /\ activeUsers m + disabledUsers m = totalUsers m)%Z.
Proof.
  unfold calculate_metrics.
  destruct (py_len users) as [e | n] eqn:Hlen; [discriminate |]. cbn [bindE].
  destruct (py_iter users) as [e | us] eqn:Hiter; [discriminate |].
  cbn [bindE].
  destruct (count_active us) as [e | a] eqn:Ha; [discriminate |].
  cbn [bindE].
  destruct (py_iter licenses) as [e | ls]; [discriminate |]. cbn [bindE].
  destruct (py_sum enabled_units ls 0) as [e | t]; [discriminate |].
  cbn [bindE].
  destruct (py_sum consumed_units ls 0) as [e | u]; [discriminate |].
  cbn [bindE]. intro H. injection H as <-. simpl.
  rewrite (py_len_iter _ _ Hiter) in Hlen. injection Hlen as <-.
  pose proof (count_active_le _ _ Ha). lia.
Qed.

(** ** Redaction *)

Lemma get_absent (k : string) (d : dict) :
  ~ In k (map fst d) -> Dict.get k d = None.
Proof.
  induction d as [| [k' v] r IH]; intro H; [reflexivity |]. simpl.
  destruct (String.eqb_spec k k') as [-> | Hk].
  - exfalso. apply H. now left.
  - apply IH. intro Hin. apply H. now right.
Qed.

Lemma get_pop_same (k : string) (d : dict) :
  NoDup (map fst d) -> Dict.get k (Dict.pop k d) = None.
Proof.
  induction d as [| [k' v] r IH]; intro H; [reflexivity |].
  simpl in H. inversion H as [| x l Hnotin Hnodup]; subst. simpl.
  destruct (String.eqb_spec k k') as [-> | Hk].
  - now apply get_absent.
  - simpl. destruct (String.eqb_spec k k'); [contradiction | now apply IH].
Qed.

Lemma get_pop_other (k k' : string) (d : dict) :
  k' <> k -> Dict.get k' (Dict.pop k d) = Dict.get k' d.
Proof.
  intro Hne. induction d as [| [k0 v] r IH]; [reflexivity |]. simpl.
  destruct (String.eqb_spec k k0) as [-> | Hk]; simpl.
  - destruct (String.eqb_spec k' k0); [contradiction | reflexivity].
  - destruct (String.eqb_spec k' k0); [reflexivity | exact IH].
Qed.

Lemma redact_all_records (items : list json) :
  forallb is_record items = true ->
  redact_all items = inr (map redacted items).
Proof.
  induction items as [| t rest IH]; intro H; [reflexivity |].
  simpl in H. apply andb_true_iff in H as [Ht H].
  destruct t as [| | | | | d]; try discriminate.
  simpl. now rewrite (IH H).
Qed.

(** X5.  [list_tenants] never raises: it answers 200 with one entry per
    record read, in the order of the store, and does nothing beyond its
    read.  The entry of a record (a dict, so each key once) has no
    [clientSecret], its [hasSecret] tells whether the stored secret is
    truthy, and every other field is the stored one. *)
Theorem list_tenants_redacts (w : world) :
  exists items,
    py_iter (fst (run _read_tenants w)) = inr items
    /\ run list_tenants w
       = (inr (Reply (JObj [("tenants", JList (map redacted items))]) 200),
          snd (run _read_tenants w))
    /\ (forall t, In t items -> distinct_keys t ->
                  field_of "clientSecret" (redacted t) = None
                  /\ field_of "hasSecret" (redacted t)
                     = Some (JBool (py_truthy
                                      (match field_of "clientSecret" t with
                                       | Some v => v
                                       | None => JNull
                                       end)))
                  /\ (forall k, k <> "clientSecret" -> k <> "hasSecret" ->
                                field_of k (redacted t) = field_of k t)).
Proof.
  rewrite run_read_tenants.
  destruct (read_result w) as (r & w1 & items & Hr & Hiter & Hrec & _).
  exists items. rewrite Hr. cbn [fst snd]. split; [exact Hiter | split].
  - unfold list_tenants. rewrite run_bind, run_read_tenants, Hr.
    cbn [run]. rewrite Hiter. cbn [bindE].
    now rewrite (redact_all_records _ Hrec).
  - intros t Hin Hkeys.
    assert (Ht : is_record t = true).
    { rewrite forallb_forall in Hrec. now apply Hrec. }
    destruct t as [| | | | | d]; try discriminate.
    unfold redacted, redact, field_of, Dict.get_default.
    split; [| split].
    + rewrite get_set_other by discriminate. now apply get_pop_same.
    + apply get_set_same.
    + intros k Hk1 Hk2.
      rewrite (get_set_other _ _ _ _ Hk2). now apply get_pop_other.
Qed.

Lemma redact_fields (d : dict) (b : bool) :
  NoDup (map fst d) ->
  field_of "clientSecret" (redact d b) = None
  /\ field_of "hasSecret" (redact d b) = Some (JBool b)
  /\ (forall k, k <> "clientSecret" -> k <> "hasSecret" ->
                field_of k (redact d b) = Dict.get k d).
Proof.
  intro H. unfold redact, field_of. split; [| split].
  - rewrite get_set_other by discriminate. now apply get_pop_same.
  - apply get_set_same.
  - intros k Hk1 Hk2.
    rewrite (get_set_other _ _ _ _ Hk2). now apply get_pop_other.
Qed.

(** ** Create *)

Lemma all_supplied_dict (d : dict) (ks : list string) :
  all_supplied (JObj d) ks = inr (forallb (supplied d) ks).
Proof.
  induction ks as [| k r IH]; [reflexivity |].
  cbn [all_supplied forallb]. unfold field_supplied, supplied at 1.
  destruct (Dict.get k d) as [v |]; cbn [bindE]; [| reflexivity].
  destruct (negb _); [exact IH | reflexivity].
Qed.

Lemma read_list_clean (w w1 : world) (l : list json) :
  run _read_tenants w = (JList l, w1) ->
  forallb is_record l = true /\ existsb legacy_secret l = false.
Proof.
  rewrite run_read_tenants. intro Hread.
  destruct (read_result w) as (r & w2 & items & Hr & Hiter & Hrec & Hleg & _).
  rewrite Hread in Hr. injection Hr as <- <-.
  injection Hiter as <-. now split.
Qed.

Lemma new_item_fields (d : dict) (id token : string) (users licenses : Z) :
  all_supplied (JObj d) required = inr true ->
  int_field "userCount" (JInt 0) (JObj d) = inr users ->
  int_field "licenseCount" (JInt 0) (JObj d) = inr licenses ->
  new_item (JObj d) id token
  = inr [("id", JStr id);
         ("name", JStr (trimmed "name" d));
         ("tenantId", JStr (trimmed "tenantId" d));
         ("clientId", JStr (trimmed "clientId" d));
         ("clientSecret", JStr token);
         ("isActive", JBool (py_truthy (Dict.get_default "isActive" (JBool true) d)));
         ("lastSync", Dict.get_default "lastSync" (JStr "") d);
         ("userCount", JInt users);
         ("licenseCount", JInt licenses)].
Proof.
  intros Hall Hu Hl.
  destruct (all_supplied_inv d Hall) as (v1 & v2 & v3 & v4 & H1 & H2 & H3 & H4).
  unfold new_item, stripped_item, py_item, trimmed, Dict.get_default.
  rewrite H1, H2, H3, Hu, Hl. reflexivity.
Qed.

Lemma create_run (w w1 : world) (d : dict) (l : list json) (users licenses : Z) :
  all_supplied (JObj d) required = inr true ->
  int_field "userCount" (JInt 0) (JObj d) = inr users ->
  int_field "licenseCount" (JInt 0) (JObj d) = inr licenses ->
  run _read_tenants w = (JList l, w1) ->
  exists item,
    new_item (JObj d) (uuid4 (tick w1))
      (fernet_encrypt (S (tick w1)) (trimmed "clientSecret" d)) = inr item
    /\ run (create_tenant (JObj d)) w
       = (Reply (redact item true) 201,
          write_text (json_dumps (JList (JObj item :: l)))
            (next_tick (next_tick w1))).
Proof.
  intros Hall Hu Hl Hread.
  pose proof (new_item_fields d (uuid4 (tick w1))
                (fernet_encrypt (S (tick w1)) (trimmed "clientSecret" d))
                users licenses Hall Hu Hl) as Hitem.
  eexists. split; [exact Hitem |].
  destruct (all_supplied_inv d Hall) as (v1 & v2 & v3 & v4 & H1 & H2 & H3 & H4).
  unfold create_tenant. rewrite payload_of_dict, Hall.
  rewrite run_bind, Hread, run_bind, run_atomic.
  assert (Hsecret : (try! n <- stripped_item "name" (JObj d);
                     try! t <- stripped_item "tenantId" (JObj d);
                     try! c <- stripped_item "clientId" (JObj d);
                     stripped_item "clientSecret" (JObj d))
                    = inr (trimmed "clientSecret" d)).
  { unfold stripped_item, py_item, trimmed, Dict.get_default.
    now rewrite H1, H2, H3, H4. }
  rewrite Hsecret, run_bind, run_atomic. unfold _encrypt_secret.
  cbn [tick next_tick]. rewrite Hitem. cbn [bindE py_insert0].
  rewrite run_bind. unfold _write_tenants. now rewrite run_atomic.
Qed.

(** X6.  A create request whose body is falsy, or is an object in which
    a required field is absent or blank after trimming, answers 400 before
    anything else happens: the store is not read, nothing is drawn from
    the random source and nothing is written. *)
Theorem create_rejects_incomplete (w : world) (body : json) :
  (py_truthy body = false
   \/ exists d k, body = JObj d /\ In k required /\ supplied d k = false) ->
  run (create_tenant body) w
  = (Reply (error_body "Missing required fields") 400, w).
Proof.
  intros [Hfalsy | (d & k & -> & Hin & Hk)].
  - unfold create_tenant, payload_of, py_or. rewrite Hfalsy. reflexivity.
  - unfold create_tenant. rewrite payload_of_dict, all_supplied_dict.
    destruct (forallb (supplied d) required) eqn:Hall; [| reflexivity].
    rewrite forallb_forall in Hall. rewrite (Hall k Hin) in Hk. discriminate.
Qed.

(** X7.  A valid create request on a store that is missing or unreadable
    answers 201 and leaves a store that holds the new record only: what
    the file held before is gone. *)
Theorem create_overwrites_unreadable_store
  (w : world) (d : dict) (users licenses : Z) :
  unreadable w ->
  all_supplied (JObj d) required = inr true ->
  int_field "userCount" (JInt 0) (JObj d) = inr users ->
  int_field "licenseCount" (JInt 0) (JObj d) = inr licenses ->
  exists item w',
    run (create_tenant (JObj d)) w = (Reply (redact item true) 201, w')
    /\ tenants_file w' = Some (json_dumps (JList [JObj item]))
    /\ Dict.get "name" item = Some (JStr (trimmed "name" d)).
Proof.
  intros Hbad Hall Hu Hl.
  destruct (read_unreadable w Hbad) as (w1 & Hread & _).
  rewrite <- run_read_tenants in Hread.
  destruct (create_run w w1 d [] users licenses Hall Hu Hl Hread)
    as (item & Hitem & Hrun).
  exists item. eexists. split; [exact Hrun | split; [reflexivity |]].
  rewrite (new_item_fields _ _ _ _ _ Hall Hu Hl) in Hitem.
  now injection Hitem as <-.
Qed.

(** X8.  The reply of a successful create is the stored record without
    its secret: it has no [clientSecret], [hasSecret] is true, and every
    other field is the field of the record stored first in the list. *)
Theorem create_reply_hides_secret
  (w w1 : world) (d : dict) (l : list json) (users licenses : Z) :
  all_supplied (JObj d) required = inr true ->
  int_field "userCount" (JInt 0) (JObj d) = inr users ->
  int_field "licenseCount" (JInt 0) (JObj d) = inr licenses ->
  run _read_tenants w = (JList l, w1) ->
  exists item body w',
    run (create_tenant (JObj d)) w = (Reply body 201, w')
    /\ tenants_file w' = Some (json_dumps (JList (JObj item :: l)))
    /\ field_of "clientSecret" body = None
    /\ field_of "hasSecret" body = Some (JBool true)
    /\ (forall k, k <> "clientSecret" -> k <> "hasSecret" ->
                  field_of k body = Dict.get k item).
Proof.
  intros Hall Hu Hl Hread.
  destruct (create_run w w1 d l users licenses Hall Hu Hl Hread)
    as (item & Hitem & Hrun).
  exists item. eexists. eexists.
  split; [exact Hrun | split; [reflexivity |]].
  apply redact_fields.
  rewrite (new_item_fields _ _ _ _ _ Hall Hu Hl) in Hitem.
  injection Hitem as <-. simpl.
  repeat (constructor; [simpl; intuition discriminate |]). constructor.
Qed.

Lemma read_after_write (w : world) (items : list json) :
  forallb is_record items = true ->
  existsb legacy_secret items = false ->
  read_tenants_locked (write_text (json_dumps (JList items)) w)
  = (JList items, write_text (json_dumps (JList items)) w).
Proof.
  intros Hrec Hleg.
  apply (read_clean _ (json_dumps (JList items)) (JList items) items);
    auto using loads_dumps.
Qed.

Lemma created_list_clean (d : dict) (l : list json) (id plain : string)
  (n : nat) (item : dict) :
  new_item (JObj d) id (fernet_encrypt n plain) = inr item ->
  forallb is_record l = true ->
  existsb legacy_secret l = false ->
  forallb is_record (JObj item :: l) = true
  /\ existsb legacy_secret (JObj item :: l) = false
  /\ Dict.get "id" item = Some (JStr id)
  /\ Dict.get "clientSecret" item = Some (JStr (fernet_encrypt n plain)).
Proof.
  intros Hitem Hrec Hleg. unfold new_item in Hitem.
  destruct (stripped_item "name" (JObj d)); [discriminate |].
  destruct (stripped_item "tenantId" (JObj d)); [discriminate |].
  destruct (stripped_item "clientId" (JObj d)); [discriminate |].
  cbn [bindE] in Hitem.
  destruct (py_get "isActive" (JBool true) (JObj d)); [discriminate |].
  destruct (py_get "lastSync" (JStr "") (JObj d)); [discriminate |].
  cbn [bindE] in Hitem.
  destruct (int_field "userCount" (JInt 0) (JObj d)); [discriminate |].
  destruct (int_field "licenseCount" (JInt 0) (JObj d)); [discriminate |].
  cbn [bindE] in Hitem. injection Hitem as <-.
  cbn [forallb existsb is_record legacy_secret Dict.get String.eqb Ascii.eqb
         Bool.eqb andb orb].
  rewrite token_not_plaintext. auto.
Qed.

(** X9.  After a successful create of an active tenant, resolving the id
    of the reply gives the trimmed directory id, client id and secret of
    the request, and the resolution reads the store without changing
    it. *)
Theorem created_tenant_resolves
  (w w1 : world) (d : dict) (l : list json) (users licenses : Z) :
  all_supplied (JObj d) required = inr true ->
  int_field "userCount" (JInt 0) (JObj d) = inr users ->
  int_field "licenseCount" (JInt 0) (JObj d) = inr licenses ->
  run _read_tenants w = (JList l, w1) ->
  py_truthy (Dict.get_default "isActive" (JBool true) d) = true ->
  exists body w',
    run (create_tenant (JObj d)) w = (Reply body 201, w')
    /\ field_of "id" body = Some (JStr (uuid4 (tick w1)))
    /\ run (_get_tenant_credentials (uuid4 (tick w1))) w'
       = (inr (JStr (trimmed "tenantId" d),
               JStr (trimmed "clientId" d),
               JStr (trimmed "clientSecret" d)), w').
Proof.
  intros Hall Hu Hl Hread Hactive.
  destruct (read_list_clean _ _ _ Hread) as [Hrec Hleg].
  destruct (create_run w w1 d l users licenses Hall Hu Hl Hread)
    as (item & Hitem & Hrun).
  destruct (created_list_clean _ _ _ _ _ _ Hitem Hrec Hleg)
    as (Hrec' & Hleg' & _ & _).
  eexists. eexists. split; [exact Hrun | split].
  - rewrite (new_item_fields _ _ _ _ _ Hall Hu Hl) in Hitem.
    now injection Hitem as <-.
  - unfold _get_tenant_credentials.
    rewrite run_bind, run_read_tenants, (read_after_write _ _ Hrec' Hleg').
    cbn [run py_iter bindE].
    rewrite (new_item_fields _ _ _ _ _ Hall Hu Hl) in Hitem.
    injection Hitem as <-.
    cbn [find_credentials id_is Dict.get Dict.get_default String.eqb
           Ascii.eqb Bool.eqb].
    rewrite String.eqb_refl, Hactive. cbn [py_truthy andb].
    now rewrite encrypt_roundtrip.
Qed.

Lemma without_id_filter (tenant_id : string) (items : list json) :
  forallb is_record items = true ->
  without_id tenant_id items
  = inr (filter (fun t => negb (has_id tenant_id t)) items).
Proof.
  induction items as [| t rest IH]; intro H; [reflexivity |].
  simpl in H. apply andb_true_iff in H as [Ht H].
  destruct t as [| | | | | d]; try discriminate.
  simpl. rewrite (IH H). simpl. now destruct (id_is tenant_id d).
Qed.

Lemma filter_absent (tenant_id : string) (items : list json) :
  existsb (has_id tenant_id) items = false ->
  filter (fun t => negb (has_id tenant_id t)) items = items.
Proof.
  induction items as [| t rest IH]; intro H; [reflexivity |].
  simpl in H. apply orb_false_iff in H as [Ht H].
  simpl. rewrite Ht. simpl. now rewrite (IH H).
Qed.

(** X10.  Deleting the id of a tenant that was just created, when no
    older record has that id, answers 200 and leaves the list that the
    create had read. *)
Theorem create_then_delete
  (w w1 : world) (d : dict) (l : list json) (users licenses : Z) :
  all_supplied (JObj d) required = inr true ->
  int_field "userCount" (JInt 0) (JObj d) = inr users ->
  int_field "licenseCount" (JInt 0) (JObj d) = inr licenses ->
  run _read_tenants w = (JList l, w1) ->
  existsb (has_id (uuid4 (tick w1))) l = false ->
  exists w'',
    run (bind (create_tenant (JObj d))
              (fun _ => delete_tenant (uuid4 (tick w1)))) w
    = (Reply (JObj [("ok", JBool true)]) 200, w'')
    /\ tenants_file w'' = Some (json_dumps (JList l)).
Proof.
  intros Hall Hu Hl Hread Hfresh.
  destruct (read_list_clean _ _ _ Hread) as [Hrec Hleg].
  destruct (create_run w w1 d l users licenses Hall Hu Hl Hread)
    as (item & Hitem & Hrun).
  destruct (created_list_clean _ _ _ _ _ _ Hitem Hrec Hleg)
    as (Hrec' & Hleg' & Hid & _).
  eexists. split.
  - rewrite run_bind, Hrun. unfold delete_tenant.
    rewrite run_bind, run_read_tenants, (read_after_write _ _ Hrec' Hleg').
    cbn [py_iter bindE py_len]. rewrite (without_id_filter _ _ Hrec').
    assert (Hmatch : id_is (uuid4 (tick w1)) item = true).
    { unfold id_is. rewrite Hid. apply String.eqb_refl. }
    cbn [filter has_id bindE]. rewrite Hmatch. cbn [negb].
    rewrite (filter_absent _ _ Hfresh). cbn [List.length].
    assert (Hne : (List.length l =? S (List.length l))%nat = false)
      by (apply Nat.eqb_neq; lia).
    rewrite Hne, run_bind. unfold _write_tenants. rewrite run_atomic.
    reflexivity.
  - reflexivity.
Qed.

(** ** Update *)

Lemma find_tenant_absent (tenant_id : string) (items : list json) :
  forallb is_record items = true ->
  existsb (has_id tenant_id) items = false ->
  find_tenant tenant_id items = inr None.
Proof.
  induction items as [| t rest IH]; intros Hrec Hno; [reflexivity |].
  simpl in Hrec, Hno. apply andb_true_iff in Hrec as [Ht Hrec].
  apply orb_false_iff in Hno as [Hid Hno].
  destruct t as [| | | | | d]; try discriminate.
  simpl in Hid. simpl. now rewrite Hid, (IH Hrec Hno).
Qed.

Lemma find_tenant_list (tenant_id : string) (tenants : json)
  (items pre post : list json) (t : dict) :
  py_iter tenants = inr items ->
  find_tenant tenant_id items = inr (Some (pre, t, post)) ->
  tenants = JList items.
Proof.
  destruct tenants as [| | | s | l | d]; try discriminate;
    intro H; injection H as <-.
  - destruct s; discriminate.
  - reflexivity.
  - destruct d; discriminate.
Qed.

Lemma set_nonempty (k : string) (v : json) (d : dict) :
  py_truthy (JObj (Dict.set k v d)) = true.
Proof.
  destruct d as [| [k' v'] r]; [reflexivity |]. simpl.
  now destruct (String.eqb k k').
Qed.

(** X11.  An update of an identifier that no record has answers 404
    whatever the body is, and does nothing beyond the read it starts
    with. *)
Theorem update_missing_tenant (w : world) (tenant_id : string) (body : json) :
  existsb (has_id tenant_id) (items_of (fst (run _read_tenants w))) = false ->
  run (update_tenant tenant_id body) w = (not_found, snd (run _read_tenants w))
  /\ (holds_legacy_secret w = false ->
      tenants_file (snd (run _read_tenants w)) = tenants_file w
      /\ writes (snd (run _read_tenants w)) = writes w).
Proof.
  rewrite run_read_tenants. intro Hno.
  destruct (read_result w) as (r & w1 & items & Hr & Hiter & Hrec & _ & Hf & Ht).
  rewrite Hr in *. unfold items_of in Hno. cbn [fst snd] in *.
  rewrite Hiter in Hno. split.
  - unfold update_tenant. rewrite run_bind, run_read_tenants, Hr, Hiter.
    cbn [bindE]. now rewrite (find_tenant_absent _ _ Hrec Hno).
  - intro Hh. rewrite Hh in Hf, Ht. rewrite app_nil_r in Ht.
    unfold writes. now rewrite Ht.
Qed.

Lemma updated_fields_shape (d t : dict) (u : dict) :
  updated_fields (JObj d) t = inr u ->
  exists users licenses,
    u = [("name", JStr (py_strip (str_ (Dict.get_default "name"
                                          (Dict.get_default "name" (JStr "") t) d))));
         ("tenantId", JStr (py_strip (str_ (Dict.get_default "tenantId"
                                              (Dict.get_default "tenantId" (JStr "") t) d))));
         ("clientId", JStr (py_strip (str_ (Dict.get_default "clientId"
                                              (Dict.get_default "clientId" (JStr "") t) d))));
         ("isActive", JBool (py_truthy (Dict.get_default "isActive"
                                          (Dict.get_default "isActive" (JBool true) t) d)));
         ("lastSync", Dict.get_default "lastSync"
                        (Dict.get_default "lastSync" (JStr "") t) d);
         ("userCount", JInt users);
         ("licenseCount", JInt licenses)].
Proof.
  unfold updated_fields. cbn [py_get bindE].
  destruct (int_field "userCount" _ (JObj d)) as [e | users]; [discriminate |].
  cbn [bindE].
  destruct (int_field "licenseCount" _ (JObj d)) as [e | licenses];
    [discriminate |].
  cbn [bindE]. intro H. injection H as <-. now exists users, licenses.
Qed.

Ltac get_after_sets :=
  repeat (rewrite get_set_other by discriminate);
  try apply get_set_same.

Lemma update_result (d t u : dict) :
  updated_fields (JObj d) t = inr u ->
  normalised (Dict.update u t)
  /\ Dict.get "id" (Dict.update u t) = Dict.get "id" t
  /\ Dict.get "clientSecret" (Dict.update u t) = Dict.get "clientSecret" t
  /\ py_truthy (JObj (Dict.update u t)) = true
  /\ (forall v, Dict.get "name" d = Some v ->
                Dict.get "name" (Dict.update u t) = Some (JStr (py_strip (str_ v)))).
Proof.
  intro Hu. destruct (updated_fields_shape _ _ _ Hu) as (users & licenses & ->).
  unfold Dict.update. cbn [fold_left fst snd].
  split; [| split; [| split; [| split]]].
  - constructor; eexists; try split;
      try (get_after_sets; fail); try apply py_strip_idempotent.
  - now get_after_sets.
  - now get_after_sets.
  - apply set_nonempty.
  - intros v Hv. repeat (rewrite get_set_other by discriminate).
    rewrite get_set_same. unfold Dict.get_default. now rewrite Hv.
Qed.

Lemma normalised_with_secret (token : json) (t : dict) :
  normalised t -> normalised (Dict.set "clientSecret" token t).
Proof.
  intros [(n & Hn & Sn) (d & Hd & Sd) (c & Hc & Sc) (b & Hb) (l & Hl)
          (uc & Hu) (lc & Hlc)].
  constructor; eexists; try split;
    try (rewrite get_set_other by discriminate; eassumption); assumption.
Qed.

Lemma update_run (w w1 : world) (tenant_id : string) (tenants : json)
  (pre post : list json) (t d u : dict) (body : json) :
  run _read_tenants w = (tenants, w1) ->
  find_tenant tenant_id (items_of tenants) = inr (Some (pre, t, post)) ->
  payload_of body = JObj d ->
  updated_fields (JObj d) t = inr u ->
  run (update_tenant tenant_id body) w
  = if supplied d "clientSecret"
    then (Reply (redact (Dict.set "clientSecret"
                           (JStr (fernet_encrypt (tick w1) (trimmed "clientSecret" d)))
                           (Dict.update u t)) true) 200,
          write_text
            (json_dumps
               (JList (pre ++ JObj (Dict.set "clientSecret"
                                      (JStr (fernet_encrypt (tick w1)
                                               (trimmed "clientSecret" d)))
                                      (Dict.update u t)) :: post)))
            (next_tick w1))
    else (Reply (redacted (JObj (Dict.update u t))) 200,
          write_text (json_dumps (JList (pre ++ JObj (Dict.update u t) :: post))) w1).
Proof.
  rewrite run_read_tenants. intros Hread Hfind Hbody Hu.
  destruct (read_result w) as (r & w2 & items & Hr & Hiter & _).
  rewrite Hread in Hr. injection Hr as <- <-.
  unfold items_of in Hfind. rewrite Hiter in Hfind.
  pose proof (find_tenant_list _ _ _ _ _ _ Hiter Hfind) as ->.
  destruct (update_result _ _ _ Hu) as (_ & _ & _ & Hne & _).
  unfold update_tenant. rewrite run_bind, run_read_tenants, Hread.
  cbn [py_iter bindE]. rewrite Hfind, Hbody, Hu. cbn [bindE].
  unfold supplied_secret, field_supplied, supplied, stripped_item, py_item,
    trimmed, Dict.get_default.
  destruct (Dict.get "clientSecret" d) as [v |]; cbn [bindE].
  - destruct (negb (String.eqb (py_strip (str_ v)) "")); cbn [bindE].
    + rewrite !run_bind, run_atomic. unfold _encrypt_secret. cbn [run].
      rewrite set_nonempty. cbn [negb].
      rewrite run_bind. unfold _write_tenants. rewrite run_atomic.
      cbn [run with_items write_tenants_locked].
      unfold Dict.get_default. rewrite get_set_same.
      now rewrite (looks_encrypted_truthy _ (token_envelope _ _)).
    + rewrite run_bind. cbn [run]. rewrite Hne. cbn [negb].
      rewrite run_bind. unfold _write_tenants. now rewrite run_atomic.
  - rewrite run_bind. cbn [run]. rewrite Hne. cbn [negb].
    rewrite run_bind. unfold _write_tenants. now rewrite run_atomic.
Qed.

(** X12.  An update that supplies a secret that is not blank stores, at
    the position of the record, a record whose secret decrypts to the
    trimmed secret of the request, and the reply has [hasSecret] true. *)
Theorem update_replaces_secret
  (w w1 : world) (tenant_id : string) (tenants : json)
  (pre post : list json) (t d u : dict) :
  run _read_tenants w = (tenants, w1) ->
  find_tenant tenant_id (items_of tenants) = inr (Some (pre, t, post)) ->
  updated_fields (JObj d) t = inr u ->
  supplied d "clientSecret" = true ->
  exists t' token w',
    run (update_tenant tenant_id (JObj d)) w = (Reply (redact t' true) 200, w')
    /\ tenants_file w' = Some (json_dumps (JList (pre ++ JObj t' :: post)))
    /\ Dict.get "clientSecret" t' = Some (JStr token)
    /\ _decrypt_secret (JStr token) = JStr (trimmed "clientSecret" d).
Proof.
  intros Hread Hfind Hu Hs.
  pose proof (update_run w w1 tenant_id tenants pre post t d u (JObj d)
                Hread Hfind (payload_of_dict d) Hu) as Hrun.
  rewrite Hs in Hrun.
  eexists. eexists. eexists.
  split; [exact Hrun | split; [reflexivity | split]].
  - apply get_set_same.
  - apply encrypt_roundtrip.
Qed.

(** X13.  A successful update keeps the record where it was and the
    other records as they were; the record keeps its id, is normalised
    afterwards, has the trimmed name of the request when one is supplied,
    and keeps its stored secret when the request supplies none. *)
Theorem update_keeps_identity
  (w w1 : world) (tenant_id : string) (tenants : json)
  (pre post : list json) (t d u : dict) :
  run _read_tenants w = (tenants, w1) ->
  find_tenant tenant_id (items_of tenants) = inr (Some (pre, t, post)) ->
  updated_fields (JObj d) t = inr u ->
  exists t' w',
    run (update_tenant tenant_id (JObj d)) w = (Reply (redacted (JObj t')) 200, w')
    /\ tenants_file w' = Some (json_dumps (JList (pre ++ JObj t' :: post)))
    /\ Dict.get "id" t' = Dict.get "id" t
    /\ normalised t'
    /\ (forall v, Dict.get "name" d = Some v ->
                  Dict.get "name" t' = Some (JStr (py_strip (str_ v))))
    /\ (supplied d "clientSecret" = false ->
        Dict.get "clientSecret" t' = Dict.get "clientSecret" t).
Proof.
  intros Hread Hfind Hu.
  pose proof (update_run w w1 tenant_id tenants pre post t d u (JObj d)
                Hread Hfind (payload_of_dict d) Hu) as Hrun.
  destruct (update_result _ _ _ Hu) as (Hnorm & Hid & Hsec & _ & Hname).
  destruct (supplied d "clientSecret") eqn:Hs.
  - exists (Dict.set "clientSecret"
              (JStr (fernet_encrypt (tick w1) (trimmed "clientSecret" d)))
              (Dict.update u t)).
    eexists. split.
    + rewrite Hrun. unfold redacted, Dict.get_default.
      rewrite get_set_same.
      now rewrite (looks_encrypted_truthy _ (token_envelope _ _)).
    + split; [reflexivity |].
      split; [| split; [| split; [| discriminate]]].
      * now rewrite get_set_other by discriminate.
      * now apply normalised_with_secret.
      * intros v Hv. rewrite get_set_other by discriminate. now apply Hname.
  - eexists. eexists. split; [exact Hrun | split; [reflexivity |]].
    auto.
Qed.

(** X14.  An update of an existing record whose body is truthy but not
    an object (a list, a string, a number, [true]) answers 500 and writes
    nothing. *)
Theorem update_rejects_non_object
  (w w1 : world) (tenant_id : string) (tenants : json)
  (pre post : list json) (t : dict) (body : json) :
  run _read_tenants w = (tenants, w1) ->
  find_tenant tenant_id (items_of tenants) = inr (Some (pre, t, post)) ->
  py_truthy body = true ->
  is_record body = false ->
  run (update_tenant tenant_id body) w = (Crash AttributeError, w1).
Proof.
  rewrite run_read_tenants. intros Hread Hfind Htrue Hobj.
  destruct (read_result w) as (r & w2 & items & Hr & Hiter & _).
  rewrite Hread in Hr. injection Hr as <- <-.
  unfold items_of in Hfind. rewrite Hiter in Hfind.
  unfold update_tenant. rewrite run_bind, run_read_tenants, Hread, Hiter.
  cbn [bindE]. rewrite Hfind. unfold payload_of, py_or. rewrite Htrue.
  destruct body; try discriminate; reflexivity.
Qed.

(** ** Delete *)

Lemma filter_keeps_clean (tenant_id : string) (items : list json) :
  forallb is_record items = true ->
  existsb legacy_secret items = false ->
  forallb is_record (filter (fun t => negb (has_id tenant_id t)) items) = true
  /\ existsb legacy_secret (filter (fun t => negb (has_id tenant_id t)) items) = false
  /\ existsb (has_id tenant_id)
       (filter (fun t => negb (has_id tenant_id t)) items) = false.
Proof.
  induction items as [| t rest IH]; intros Hrec Hleg; [now repeat split |].
  simpl in Hrec, Hleg. apply andb_true_iff in Hrec as [Ht Hrec].
  apply orb_false_iff in Hleg as [Hl Hleg].
  destruct (IH Hrec Hleg) as (H1 & H2 & H3). simpl.
  destruct (has_id tenant_id t) eqn:Hid; simpl; [now repeat split |].
  now rewrite Ht, Hl, Hid, H1, H2, H3.
Qed.

Lemma filter_shorter (tenant_id : string) (items : list json) :
  existsb (has_id tenant_id) items = true ->
  (List.length (filter (fun t => negb (has_id tenant_id t)) items)
   < List.length items)%nat.
Proof.
  induction items as [| t rest IH]; intro H; [discriminate |]. simpl in *.
  pose proof (filter_length_le (fun t => negb (has_id tenant_id t)) rest).
  destruct (has_id tenant_id t); simpl; [lia |].
  specialize (IH H). lia.
Qed.

(** X15.  Deleting an identifier that some record has answers 200 and
    stores the records without that identifier, in their order; after
    that, a second delete of the identifier answers 404 and changes
    nothing. *)
Theorem delete_removes_tenant (w : world) (tenant_id : string) :
  existsb (has_id tenant_id) (items_of (fst (run _read_tenants w))) = true ->
  exists w',
    run (delete_tenant tenant_id) w = (Reply (JObj [("ok", JBool true)]) 200, w')
    /\ tenants_file w'
       = Some (json_dumps
                 (JList (filter (fun t => negb (has_id tenant_id t))
                           (items_of (fst (run _read_tenants w))))))
    /\ run (delete_tenant tenant_id) w' = (not_found, w').
Proof.
  rewrite run_read_tenants. intro Hyes.
  destruct (read_result w) as (r & w1 & items & Hr & Hiter & Hrec & Hleg & _).
  rewrite Hr in *. unfold items_of in *. cbn [fst] in *. rewrite Hiter in *.
  destruct (filter_keeps_clean tenant_id items Hrec Hleg) as (Hrec' & Hleg' & Hno).
  pose proof (filter_shorter _ _ Hyes) as Hlt.
  exists (write_text
            (json_dumps
               (JList (filter (fun t => negb (has_id tenant_id t)) items))) w1).
  split; [| split; [reflexivity |]].
  - unfold delete_tenant. rewrite run_bind, run_read_tenants, Hr, Hiter.
    cbn [bindE]. rewrite (without_id_filter _ _ Hrec), (py_len_iter _ _ Hiter).
    cbn [bindE].
    destruct (Nat.eqb_spec
                (List.length (filter (fun t => negb (has_id tenant_id t)) items))
                (List.length items)) as [Heq | _]; [lia |].
    rewrite run_bind. unfold _write_tenants. rewrite run_atomic. reflexivity.
  - unfold delete_tenant.
    rewrite run_bind, run_read_tenants, (read_after_write _ _ Hrec' Hleg').
    cbn [py_iter py_len bindE].
    rewrite (without_id_filter _ _ Hrec'), (filter_absent _ _ Hno).
    cbn [bindE]. now rewrite Nat.eqb_refl.
Qed.

(** ** Credential resolver *)

Lemma id_is_with_secret (tenant_id : string) (v : json) (d : dict) :
  id_is tenant_id (Dict.set "clientSecret" v d) = id_is tenant_id d.
Proof. unfold id_is. now rewrite get_set_other by discriminate. Qed.

Lemma find_credentials_migrated (tenant_id : string) (items items' : list json) :
  Forall2 migrated items items' ->
  find_credentials tenant_id items' = inr (stored_credentials tenant_id items).
Proof.
  induction 1 as [| t t' r r' Ht _ IH]; [reflexivity |].
  unfold migrated in Ht. destruct t as [| | | | | d]; try contradiction.
  assert (Hsame : t' = JObj d ->
                  is_plaintext (Some (Dict.get_default "clientSecret" (JStr "") d))
                  = false ->
                  find_credentials tenant_id (t' :: r')
                  = inr (stored_credentials tenant_id (JObj d :: r))).
  { intros -> Hp. cbn [find_credentials stored_credentials].
    unfold effective_secret. rewrite Hp, IH. now destruct (_ && _). }
  destruct (Dict.get "clientSecret" d) as [[| | | s | |] |] eqn:Hs;
    try (apply Hsame; [exact Ht | unfold Dict.get_default; now rewrite Hs]).
  destruct (is_plaintext (Some (JStr s))) eqn:Hp.
  - destruct Ht as (n & -> & Hdec).
    cbn [find_credentials stored_credentials].
    rewrite id_is_with_secret, IH. unfold Dict.get_default, effective_secret.
    rewrite get_set_same, Hs, Hp, Hdec.
    rewrite !get_set_other by discriminate. now destruct (_ && _).
  - apply Hsame; [exact Ht | unfold Dict.get_default; now rewrite Hs].
Qed.

(** X16.  On a store that holds a list of records, the resolver returns
    the credentials of the first active record with the identifier as the
    file has them: a legacy plaintext secret is handed out unchanged,
    although the read has encrypted it in the file, and any other secret
    goes through [_decrypt_secret]. *)
Theorem resolver_sees_through_migration
  (w : world) (t : text) (items : list json) (tenant_id : string) :
  tenants_file w = Some t ->
  json_loads t = Some (JList items) ->
  forallb is_record items = true ->
  fst (run (_get_tenant_credentials tenant_id) w)
  = inr (stored_credentials tenant_id items).
Proof.
  intros Hfile Hload Hrec.
  destruct (migrate_records items w Hrec) as (items' & w1 & Hm & HF & _).
  unfold _get_tenant_credentials.
  rewrite run_bind, run_read_tenants, (read_list w t items Hfile Hload), Hm.
  cbn [run fst py_iter bindE]. now apply find_credentials_migrated.
Qed.

(** ** Aggregation failures *)

(** X17.  When the token acquirer raises, or answers without an
    [access_token], the pipeline answers 500 (with the answer of the
    acquirer as [details] in the second case) right after the token
    request: no fetch is issued and the store is not touched again. *)
Theorem token_failure_stops_pipeline
  (w w1 : world) (tenant_id : string) (a b c : json) :
  run (_get_tenant_credentials tenant_id) w = (inr (a, b, c), w1) ->
  py_truthy a && py_truthy b && py_truthy c = true ->
  (forall e, acquire_token_for_client a b c = TokenRaise e ->
             run (_collect_tenant_data tenant_id) w
             = (Crash e, log (EvToken a b c) w1))
  /\ (forall d, acquire_token_for_client a b c = TokenResult d ->
                Dict.get "access_token" d = None ->
                run (_collect_tenant_data tenant_id) w
                = (Reply (JObj [("error", JStr "Failed to acquire token for tenant");
                                ("details", JObj d)]) 500,
                   log (EvToken a b c) w1)).
Proof.
  intros Hcreds Htruthy. split.
  - intros e He. unfold _collect_tenant_data.
    rewrite run_bind, Hcreds, Htruthy. cbn [negb].
    now rewrite run_bind, run_atomic, He.
  - intros d Hd Hnone. unfold _collect_tenant_data.
    rewrite run_bind, Hcreds, Htruthy. cbn [negb].
    now rewrite run_bind, run_atomic, Hd, Hnone.
Qed.

Lemma py_get_cases (k : string) (dflt v : json) :
  py_get k dflt v = inl AttributeError \/ exists x, py_get k dflt v = inr x.
Proof. destruct v; simpl; eauto. Qed.

Lemma aggregate_non_object (u l g s : json) :
  is_record u && is_record l && is_record g && is_record s = false ->
  aggregate u l g s = inl AttributeError.
Proof.
  intro H. unfold aggregate.
  destruct u; try reflexivity; cbn [py_get bindE].
  destruct l; try reflexivity; cbn [py_get bindE].
  destruct g; try reflexivity; cbn [py_get bindE].
  destruct s; try reflexivity. discriminate H.
Qed.

(** X18.  When one of the four fetches returns a JSON body that is not
    an object, the pipeline answers 500 after the four fetches, and the
    sync snapshot is not written: the file is as the resolver left it. *)
Theorem non_object_body_aborts
  (w w1 : world) (tenant_id : string) (a b c access_token : json) (d : dict)
  (e : endpoint) (body : json) :
  run (_get_tenant_credentials tenant_id) w = (inr (a, b, c), w1) ->
  py_truthy a && py_truthy b && py_truthy c = true ->
  acquire_token_for_client a b c = TokenResult d ->
  Dict.get "access_token" d = Some access_token ->
  graph_get e access_token = FetchJson body ->
  is_record body = false ->
  exists w',
    run (_collect_tenant_data tenant_id) w = (Crash AttributeError, w')
    /\ tenants_file w' = tenants_file w1
    /\ writes w' = writes w1
    /\ (forall e', In (EvFetch e') (trace w')).
Proof.
  intros Hcreds Htruthy Htoken Haccess Hbody Hobj.
  eexists. split.
  - unfold _collect_tenant_data. rewrite run_bind, Hcreds, Htruthy.
    cbn [negb]. rewrite run_bind, run_atomic, Htoken, Haccess.
    unfold fetch. repeat (rewrite run_bind, run_atomic; cbv beta iota).
    rewrite aggregate_non_object; [reflexivity |].
    destruct e; rewrite Hbody; cbn [fetched]; rewrite Hobj;
      now rewrite ?andb_false_r.
  - split; [reflexivity |]. split.
    + unfold writes, log. cbn [trace].
      now rewrite !filter_app, !length_app, !Nat.add_0_r.
    + intro e'. unfold log. cbn [trace].
      destruct e'; rewrite <- !app_assoc; apply in_or_app; right; simpl;
        auto 8.
Qed.

(** ** Sync snapshot *)




(** ** Sync *)

(** X20.  A sync of an identifier that no record has, or whose records
    are all inactive, answers 404 with the missing-credentials payload
    right after the read of the resolver: no token is requested, nothing
    is fetched and no snapshot is written. *)
Theorem sync_unresolved_tenant (w : world) (tenant_id : string) :
  (forall d, In (JObj d) (items_of (fst (run _read_tenants w))) ->
             id_is tenant_id d = true ->
             py_truthy (Dict.get_default "isActive" (JBool false) d) = false) ->
  run (sync_tenant_data tenant_id) w
  = (missing_credentials, snd (run _read_tenants w))
  /\ trace (snd (run _read_tenants w))
     = (trace w ++ (if holds_legacy_secret w
                    then [EvWrite (json_dumps (fst (run _read_tenants w)))]
                    else []))%list.
Proof.
  rewrite run_read_tenants. intro Hno.
  destruct (read_result w) as (r & w1 & items & Hr & Hiter & Hrec & _ & _ & Ht).
  rewrite Hr in *. unfold items_of in Hno. cbn [fst snd] in *.
  rewrite Hiter in Hno. split; [| exact Ht].
  unfold sync_tenant_data, _collect_tenant_data, _get_tenant_credentials.
  rewrite !run_bind, run_read_tenants, Hr. cbn [run].
  rewrite Hiter. cbn [bindE].
  now rewrite (find_credentials_inactive _ _ Hrec Hno).
Qed.








(** ** Reading twice *)

Lemma read_value_legacy_free (w : world) :
  holds_legacy_secret w = false ->
  fst (read_tenants_locked w) = stored_value w.
Proof.
  unfold holds_legacy_secret, stored_value, read_tenants_locked.
  destruct (tenants_file w) as [t |]; [| reflexivity].
  destruct (json_loads t) as [tenants |]; [| reflexivity].
  destruct (py_iter tenants) as [e | items] eqn:Hiter; [reflexivity |].
  intro Hh. destruct (forallb is_record items) eqn:Hrec.
  - assert (Hleg : existsb legacy_secret items = false).
    { destruct tenants as [| | | s | l | d]; try discriminate;
        injection Hiter as <-.
      - apply records_of_chars in Hrec. now subst s.
      - now rewrite Hrec in Hh.
      - apply records_of_keys in Hrec. now subst d. }
    rewrite (migrate_no_legacy _ _ Hrec Hleg).
    cbn [fst]. now apply with_items_same.
  - destruct (migrate_fails items w Hrec) as (e & w1 & -> & _). reflexivity.
Qed.

Lemma after_read_legacy_free (w : world) :
  holds_legacy_secret (snd (read_tenants_locked w)) = false.
Proof.
  destruct (read_result w) as (r & w1 & items & Hr & Hiter & Hrec & Hleg & Hf & _).
  rewrite Hr. cbn [snd].
  destruct (holds_legacy_secret w) eqn:Hh.
  - unfold holds_legacy_secret. rewrite Hf, loads_dumps.
    destruct r as [| | | | l |]; try reflexivity.
    injection Hiter as <-. rewrite Hleg. apply andb_false_r.
  - unfold holds_legacy_secret in *. now rewrite Hf.
Qed.

(** X22.  For every store, a second read returns what the first read
    returned and does not write: whatever the file holds, at most the
    first read rewrites it. *)
Theorem read_is_idempotent (w : world) :
  fst (run _read_tenants (snd (run _read_tenants w))) = fst (run _read_tenants w)
  /\ tenants_file (snd (run _read_tenants (snd (run _read_tenants w))))
     = tenants_file (snd (run _read_tenants w))
  /\ writes (snd (run _read_tenants (snd (run _read_tenants w))))
     = writes (snd (run _read_tenants w)).
Proof.
  rewrite !run_read_tenants.
  pose proof (after_read_legacy_free w) as Hclean.
  destruct (read_result w) as (r & w1 & items & Hr & Hiter & Hrec & Hleg & Hf & _).
  rewrite Hr in *. cbn [fst snd] in *.
  destruct (read_result w1) as (r2 & w2 & items2 & Hr2 & _ & _ & _ & Hf2 & Ht2).
  rewrite Hclean in Hf2, Ht2. rewrite app_nil_r in Ht2.
  pose proof (read_value_legacy_free w1 Hclean) as Hv.
  rewrite Hr2 in *. cbn [fst snd] in *.
  split; [| split; [exact Hf2 | unfold writes; now rewrite Ht2]].
  rewrite Hv. destruct (holds_legacy_secret w) eqn:Hh.
  - unfold stored_value. now rewrite Hf, loads_dumps, Hiter, Hrec.
  - pose proof (read_value_legacy_free w Hh) as Hv0. rewrite Hr in Hv0.
    cbn [fst] in Hv0. rewrite Hv0. unfold stored_value. now rewrite Hf.
Qed.

(** X23.  After a read, a store that holds a list of records holds no
    legacy plaintext secret: a further read has nothing to migrate. *)
Theorem read_leaves_no_plaintext (w : world) :
  holds_legacy_secret (snd (run _read_tenants w)) = false.
Proof.
  rewrite run_read_tenants. apply after_read_legacy_free.
Qed.

(** ** Counters that [int] rejects *)

(** [int] follows CPython: blanks around the number are skipped, the
    separators U+001C to U+001F are not, underscores stand between digits
    only, and more than 4300 digits are refused. *)
Lemma int_of_str_examples :
  int_of_str " 12 " = Some 12%Z
  /\ int_of_str "-1_000" = Some (-1000)%Z
  /\ int_of_str Double.separator_counter = None
  /\ int_of_str ("12" ++ String (ascii_of_nat 31) "") = None
  /\ int_of_str "1__0" = None
  /\ int_of_str "" = None
  /\ int_of_str (Double.ones 4300) <> None
  /\ int_of_str (Double.ones 4301) = None.
Proof.
  repeat split; try reflexivity.
  intro H. vm_compute in H. discriminate H.
Qed.

(** X24.  A create request with the four required fields whose
    [userCount] or [licenseCount] does not convert with [int] answers 500
    with the exception of the conversion, after the store was read and an
    id and a token were drawn, and writes nothing. *)
Theorem create_rejects_bad_counter
  (w w1 : world) (d : dict) (tenants : json) (e : exn) :
  all_supplied (JObj d) required = inr true ->
  run _read_tenants w = (tenants, w1) ->
  (int_field "userCount" (JInt 0) (JObj d) = inl e
   \/ exists users,
        int_field "userCount" (JInt 0) (JObj d) = inr users
        /\ int_field "licenseCount" (JInt 0) (JObj d) = inl e) ->
  run (create_tenant (JObj d)) w = (Crash e, next_tick (next_tick w1))
  /\ tenants_file (next_tick (next_tick w1)) = tenants_file w1
  /\ writes (next_tick (next_tick w1)) = writes w1.
Proof.
  intros Hall Hread Hbad. split; [| split; reflexivity].
  destruct (all_supplied_inv d Hall) as (v1 & v2 & v3 & v4 & H1 & H2 & H3 & H4).
  unfold create_tenant. rewrite payload_of_dict, Hall.
  rewrite run_bind, Hread, run_bind, run_atomic.
  unfold stripped_item, py_item. rewrite H1, H2, H3, H4. cbn [bindE].
  rewrite run_bind, run_atomic. unfold _encrypt_secret.
  unfold new_item, stripped_item, py_item. rewrite H1, H2, H3.
  cbn [bindE py_get].
  destruct Hbad as [Hu | (users & Hu & Hl)]; rewrite Hu; [reflexivity |].
  cbn [bindE]. now rewrite Hl.
Qed.

(** X25.  An update of an existing record with an object body in which
    a counter, supplied or stored, does not convert with [int] answers 500
    with the exception of the conversion and writes nothing. *)
Theorem update_rejects_bad_counter
  (w w1 : world) (tenant_id : string) (tenants : json)
  (pre post : list json) (t d : dict) (e : exn) :
  run _read_tenants w = (tenants, w1) ->
  find_tenant tenant_id (items_of tenants) = inr (Some (pre, t, post)) ->
  updated_fields (JObj d) t = inl e ->
  run (update_tenant tenant_id (JObj d)) w = (Crash e, w1).
Proof.
  rewrite run_read_tenants. intros Hread Hfind Hu.
  destruct (read_result w) as (r & w2 & items & Hr & Hiter & _).
  rewrite Hread in Hr. injection Hr as <- <-.
  unfold items_of in Hfind. rewrite Hiter in Hfind.
  unfold update_tenant. rewrite run_bind, run_read_tenants, Hread, Hiter.
  cbn [bindE]. now rewrite Hfind, payload_of_dict, Hu.
Qed.

End Coverage.


(** ** The further properties on concrete stores *)

Lemma double_list_body_ok : ExternalsOK Double.E_list_body.
Proof. apply double_ok. Qed.

Lemma double_denied_ok : ExternalsOK Double.E_denied.
Proof.
  constructor.
  - reflexivity.
  - intros n p. apply double_drop_nonce.
  - reflexivity.
Qed.

(** Witness of X1: first start without a configured key and without a
    key file. *)
Lemma load_fernet_stable_witness :
  _load_fernet "" (snd (_load_fernet "" None "k3y")) "other"
  = ("k3y", Some "k3y").
Proof.
  exact (proj1 (load_fernet_stable "" "k3y" "other" None eq_refl)).
Defined.

(** Witness of X2: a store whose second item is a number. *)
Lemma unreadable_store_reads_empty_witness :
  fst (run _read_tenants Double.broken_store) = JList []
  /\ Double.stored (snd (run _read_tenants Double.broken_store))
     = Double.stored Double.broken_store.
Proof.
  destruct (unreadable_store_reads_empty Double.broken_store eq_refl)
    as (H1 & H2 & _).
  split; [exact H1 |]. unfold Double.stored. now rewrite H2.
Defined.

(** Witness of X3: writing a list with one created record. *)
Lemma write_then_read_witness :
  fst (run (bind (_write_tenants (JList [JObj Double.created_record]))
                 (fun _ => _read_tenants)) Double.missing_store)
  = JList [JObj Double.created_record].
Proof.
  now rewrite (write_then_read (OK := double_E_ok) Double.missing_store
                 (JList [JObj Double.created_record])
                 [JObj Double.created_record] eq_refl eq_refl eq_refl).
Defined.

(** Witness of X4: three users, two of them active. *)
Lemma user_counts_bounded_witness :
  (0 <= 2 <= 3 /\ 0 <= 1 /\ 2 + 1 = 3)%Z.
Proof.
  exact (user_counts_bounded
           (JList [JObj [("accountEnabled", JBool true)];
                   JObj [("accountEnabled", JBool false)];
                   JObj []])
           (JList []) (mkMetrics 3 2 1 0 0 0) eq_refl).
Defined.

(** Witness of X6: a request whose name is blank. *)
Lemma create_rejects_incomplete_witness :
  run (create_tenant (JObj [("name", JStr "  "); ("tenantId", JStr "dir")]))
      Double.created_store
  = (Reply (error_body "Missing required fields") 400, Double.created_store).
Proof.
  apply create_rejects_incomplete. right.
  exists [("name", JStr "  "); ("tenantId", JStr "dir")], "name".
  repeat split. now left.
Defined.

(** Witness of X7: a create on the store whose second item is a number. *)
Lemma create_overwrites_unreadable_store_witness :
  exists item w',
    run (create_tenant (Double.request "A" "secret-a")) Double.broken_store
    = (Reply (redact item true) 201, w')
    /\ Double.field "name" w' = [Some (JStr "A")].
Proof.
  destruct (create_overwrites_unreadable_store (E := Double.E)
              Double.broken_store (Double.request_fields "A" "secret-a")
              0%Z 0%Z eq_refl eq_refl eq_refl eq_refl)
    as (item & w' & H1 & H2 & H3).
  exists item, w'. split; [exact H1 |].
  unfold Double.field, Double.stored. rewrite H2. simpl. now rewrite H3.
Defined.

(** Witness of X8: the reply of a create has no secret. *)
Lemma create_reply_hides_secret_witness :
  exists body w',
    run (create_tenant (Double.request "A" "secret-a")) Double.created_store
    = (Reply body 201, w')
    /\ field_of "clientSecret" body = None
    /\ field_of "hasSecret" body = Some (JBool true).
Proof.
  destruct (create_reply_hides_secret (E := Double.E)
              Double.created_store Double.created_store
              (Double.request_fields "A" "secret-a")
              [JObj Double.created_record] 0%Z 0%Z
              eq_refl eq_refl eq_refl eq_refl)
    as (item & body & w' & H1 & _ & H3 & H4 & _).
  now exists body, w'.
Defined.

(** Witness of X9: the created tenant resolves to the request's values. *)
Lemma created_tenant_resolves_witness :
  exists body w',
    run (create_tenant (Double.request "A" " secret-a ")) Double.created_store
    = (Reply body 201, w')
    /\ fst (run (_get_tenant_credentials "uuid-0") w')
       = inr (JStr "dir-A", JStr "app-A", JStr "secret-a").
Proof.
  destruct (created_tenant_resolves (OK := double_E_ok)
              Double.created_store Double.created_store
              (Double.request_fields "A" " secret-a ")
              [JObj Double.created_record] 0%Z 0%Z
              eq_refl eq_refl eq_refl eq_refl eq_refl)
    as (body & w' & H1 & _ & H3).
  exists body, w'. split; [exact H1 |].
  change "uuid-0" with (uuid4 (Externals := Double.E) (tick Double.created_store)).
  now rewrite H3.
Defined.

(** Witness of X10: create, then delete the new id. *)
Lemma create_then_delete_witness :
  exists w'',
    run (bind (create_tenant (Double.request "A" "secret-a"))
              (fun _ => delete_tenant "uuid-0")) Double.created_store
    = (Reply (JObj [("ok", JBool true)]) 200, w'')
    /\ Double.stored w'' = Double.stored Double.created_store.
Proof.
  destruct (create_then_delete (OK := double_E_ok)
              Double.created_store Double.created_store
              (Double.request_fields "A" "secret-a")
              [JObj Double.created_record] 0%Z 0%Z
              eq_refl eq_refl eq_refl eq_refl eq_refl)
    as (w'' & H1 & H2).
  exists w''. split; [exact H1 |]. unfold Double.stored. now rewrite H2.
Defined.

(** Witness of X11: an update of an unknown id with a number as body. *)
Lemma update_missing_tenant_witness :
  run (update_tenant "missing" (JInt 5)) Double.created_store
  = (not_found, Double.created_store).
Proof.
  exact (proj1 (update_missing_tenant (OK := double_E_ok)
                  Double.created_store "missing" (JInt 5) eq_refl)).
Defined.

(** Witness of X12: an update that supplies a new secret. *)
Lemma update_replaces_secret_witness :
  exists t' token w',
    run (update_tenant "t1" (JObj [("clientSecret", JStr " rotated ")]))
        Double.created_store
    = (Reply (redact t' true) 200, w')
    /\ Dict.get "clientSecret" t' = Some (JStr token)
    /\ _decrypt_secret (E := Double.E) (JStr token) = JStr "rotated".
Proof.
  destruct (update_replaces_secret (OK := double_E_ok)
              Double.created_store Double.created_store "t1"
              (JList [JObj Double.created_record]) [] [] Double.created_record
              [("clientSecret", JStr " rotated ")]
              (Double.update_of [("clientSecret", JStr " rotated ")])
              eq_refl eq_refl eq_refl eq_refl)
    as (t' & token & w' & H1 & _ & H3 & H4).
  now exists t', token, w'.
Defined.

(** Witness of X13: an update that renames the tenant. *)
Lemma update_keeps_identity_witness :
  exists t' w',
    run (update_tenant "t1" (JObj [("name", JStr " Renamed ")]))
        Double.created_store
    = (Reply (redacted (JObj t')) 200, w')
    /\ Dict.get "id" t' = Some (JStr "t1")
    /\ Dict.get "name" t' = Some (JStr "Renamed")
    /\ Dict.get "clientSecret" t'
       = Some (JStr (Double.encrypt 3 "s3cret")).
Proof.
  destruct (update_keeps_identity (OK := double_E_ok)
              Double.created_store Double.created_store "t1"
              (JList [JObj Double.created_record]) [] [] Double.created_record
              [("name", JStr " Renamed ")]
              (Double.update_of [("name", JStr " Renamed ")])
              eq_refl eq_refl eq_refl)
    as (t' & w' & H1 & _ & H3 & _ & H5 & H6).
  exists t', w'. split; [exact H1 | split; [exact H3 | split]].
  - exact (H5 _ eq_refl).
  - exact (H6 eq_refl).
Defined.

(** Witness of X14: an update whose body is a list. *)
Lemma update_rejects_non_object_witness :
  run (update_tenant "t1" (JList [JInt 1])) Double.created_store
  = (Crash AttributeError, Double.created_store).
Proof.
  exact (update_rejects_non_object (OK := double_E_ok)
           Double.created_store Double.created_store "t1"
           (JList [JObj Double.created_record]) [] [] Double.created_record
           (JList [JInt 1]) eq_refl eq_refl eq_refl eq_refl).
Defined.

(** Witness of X15: deleting the only tenant. *)
Lemma delete_removes_tenant_witness :
  exists w',
    run (delete_tenant "t1") Double.created_store
    = (Reply (JObj [("ok", JBool true)]) 200, w')
    /\ Double.stored w' = Some (JList [])
    /\ run (delete_tenant "t1") w' = (not_found, w').
Proof.
  destruct (delete_removes_tenant (OK := double_E_ok)
              Double.created_store "t1" eq_refl) as (w' & H1 & H2 & H3).
  exists w'. split; [exact H1 | split; [| exact H3]].
  unfold Double.stored. now rewrite H2.
Defined.

(** Witness of X16: the legacy secret of tenant ["a"] is handed out as it
    was written. *)
Lemma resolver_sees_through_migration_witness :
  fst (run (_get_tenant_credentials "a") Double.legacy_store)
  = inr (JStr "dir-a", JStr "app-a", JStr "plain-secret").
Proof.
  exact (resolver_sees_through_migration (OK := double_E_ok)
           Double.legacy_store _ _ "a" eq_refl eq_refl eq_refl).
Defined.

(** Witness of X17: the acquirer answers with an error only. *)
Lemma token_failure_stops_pipeline_witness :
  status_of (fst (run (_collect_tenant_data "a") Double.denied_store)) = 500%Z
  /\ trace (snd (run (_collect_tenant_data "a") Double.denied_store))
     = [EvToken (JStr "dir-a") (JStr "app-a") (JStr "s3cret")].
Proof.
  rewrite (proj2 (token_failure_stops_pipeline (E := Double.E_denied)
                    Double.denied_store Double.denied_store "a"
                    (JStr "dir-a") (JStr "app-a") (JStr "s3cret")
                    eq_refl eq_refl)
             Double.denied_answer eq_refl eq_refl).
  split; reflexivity.
Defined.

(** Witness of X18: the users endpoint answers with a JSON list. *)
Lemma non_object_body_aborts_witness :
  exists w',
    run (_collect_tenant_data "a") Double.list_body_store
    = (Crash AttributeError, w')
    /\ writes w' = 0%nat.
Proof.
  destruct (non_object_body_aborts (E := Double.E_list_body)
              Double.list_body_store Double.list_body_store "a"
              (JStr "dir-a") (JStr "app-a") (JStr "s3cret") (JStr "bearer")
              [("access_token", JStr "bearer")] Users (JList [])
              eq_refl eq_refl eq_refl eq_refl eq_refl eq_refl)
    as (w' & H1 & _ & H3 & _).
  now exists w'.
Defined.


(** Witness of X20: a sync of the inactive tenant ["b"]. *)
Lemma sync_unresolved_tenant_witness :
  fst (run (sync_tenant_data "b") Double.legacy_store) = missing_credentials.
Proof.
  rewrite (proj1 (sync_unresolved_tenant (OK := double_E_ok)
                    Double.legacy_store "b"
                    ltac:(intros d [H | [H | []]] Hid; injection H as <-;
                          [discriminate Hid | reflexivity]))).
  reflexivity.
Defined.


(** Witness of X5: the list of the store with two tenants. *)
Lemma list_tenants_redacts_witness :
  exists items,
    fst (run list_tenants Double.legacy_store)
    = inr (Reply (JObj [("tenants", JList (map redacted items))]) 200)
    /\ List.length items = 2%nat.
Proof.
  destruct (list_tenants_redacts (OK := double_E_ok) Double.legacy_store)
    as (items & H1 & H2 & _).
  exists items. rewrite H2. split; [reflexivity |].
  vm_compute in H1. now injection H1 as <-.
Defined.

(** Witness of X22: reading the store with a legacy secret twice. *)
Lemma read_is_idempotent_witness :
  fst (run _read_tenants (snd (run _read_tenants Double.legacy_store)))
  = fst (run _read_tenants Double.legacy_store).
Proof.
  exact (proj1 (read_is_idempotent (OK := double_E_ok) Double.legacy_store)).
Defined.

(** Witness of X23: the store with a legacy secret, after a read. *)
Lemma read_leaves_no_plaintext_witness :
  holds_legacy_secret Double.legacy_store = true
  /\ holds_legacy_secret (snd (run _read_tenants Double.legacy_store)) = false.
Proof.
  split; [reflexivity |].
  exact (read_leaves_no_plaintext (OK := double_E_ok) Double.legacy_store).
Defined.


(** Witness of X24: the counter ["\x1c12"], which [str.strip] would trim
    to ["12"]. *)
Lemma create_rejects_bad_counter_witness :
  fst (run (create_tenant
              (JObj (("userCount", JStr Double.separator_counter)
                       :: Double.request_fields "A" "secret-a")))
           Double.created_store)
  = Crash ValueError
  /\ Double.stored
       (snd (run (create_tenant
                    (JObj (("userCount", JStr Double.separator_counter)
                             :: Double.request_fields "A" "secret-a")))
                 Double.created_store))
     = Double.stored Double.created_store.
Proof.
  destruct (create_rejects_bad_counter (E := Double.E)
              Double.created_store Double.created_store
              (("userCount", JStr Double.separator_counter)
                 :: Double.request_fields "A" "secret-a")
              (JList [JObj Double.created_record]) ValueError
              eq_refl eq_refl (or_introl eq_refl)) as (H1 & _ & _).
  rewrite H1. split; reflexivity.
Defined.

(** Witness of X25: an update that supplies the counter ["\x1c12"]. *)
Lemma update_rejects_bad_counter_witness :
  run (update_tenant "t1" (JObj [("userCount", JStr Double.separator_counter)]))
      Double.created_store
  = (Crash ValueError, Double.created_store).
Proof.
  exact (update_rejects_bad_counter (OK := double_E_ok)
           Double.created_store Double.created_store "t1"
           (JList [JObj Double.created_record]) [] [] Double.created_record
           [("userCount", JStr Double.separator_counter)] ValueError
           eq_refl eq_refl eq_refl).
Defined.
